(** * wolf_comm.wolf_client: the portal client, embedded and verified

    The development follows [src/wolf_comm/wolf_client.py]:
    - JSON values and the Python operations the client applies to them
      ([x[k]], [k in x], [x == y], iteration, [d[k] = v]);
    - the descriptor mapper [_map_parameter] and the view mapper [_map_view];
    - the flattening loop of [fetch_parameters];
    - the request pipeline [__request] with the client's mutable fields, run
      against an arbitrary outside world (authenticator, session opener,
      clock, transport) whose calls are recorded in a trace;
    - [fetch_value].

    JSON numbers are integers here; the portal's identifiers are integers
    and no function of the client computes with a number. *)

From Stdlib Require Import ZArith String Ascii List Bool Lia.
From stdpp Require Import base tactics option list gmap strings.

Import ListNotations.
Set Warnings "-register-all".
Local Open Scope string_scope.
Local Open Scope list_scope.

(** ** JSON values *)

(** A decoded JSON document.  An object is kept as the list of its members
    in insertion order, as a Python [dict] keeps them; [dict_get] reads the
    first member with the key. *)
Inductive json : Type :=
| JNull
| JBool (b : bool)
| JInt (n : Z)
| JStr (s : string)
| JList (l : list json)
| JDict (d : list (string * json)).

Section Dict.
Context {V : Type}.

Fixpoint dict_get (k : string) (d : list (string * V)) : option V :=
  match d with
  | [] => None
  | (k', v) :: d' => if String.eqb k' k then Some v else dict_get k d'
  end.

Definition dict_mem (k : string) (d : list (string * V)) : bool :=
  match dict_get k d with Some _ => true | None => false end.

(** [d[k] = v]: an existing key keeps its place, a new key goes last. *)
Fixpoint dict_set (k : string) (v : V) (d : list (string * V)) : list (string * V) :=
  match d with
  | [] => [(k, v)]
  | (k', v') :: d' =>
      if String.eqb k' k then (k', v) :: d' else (k', v') :: dict_set k v d'
  end.
End Dict.

(** Python's [==] on decoded JSON.  [bool] is a subtype of [int]
    ([True == 1]); lists compare element by element; dicts compare as
    mappings (same size, and every member of the left one is found equal in
    the right one). *)
Fixpoint py_eq (x y : json) {struct x} : bool :=
  match x, y with
  | JNull, JNull => true
  | JBool a, JBool b => Bool.eqb a b
  | JBool a, JInt n => Z.eqb (Z.b2z a) n
  | JInt m, JBool b => Z.eqb m (Z.b2z b)
  | JInt m, JInt n => Z.eqb m n
  | JStr s, JStr t => String.eqb s t
  | JList l, JList m =>
      (fix all2 (l m : list json) : bool :=
         match l, m with
         | [], [] => true
         | a :: l', b :: m' => py_eq a b && all2 l' m'
         | _, _ => false
         end) l m
  | JDict d, JDict e =>
      Nat.eqb (length d) (length e) &&
      (fix sub (d : list (string * json)) : bool :=
         match d with
         | [] => true
         | (k, v) :: d' =>
             match dict_get k e with
             | Some w => py_eq v w
             | None => false
             end && sub d'
         end) d
  | _, _ => false
  end.

(** The hashable JSON values: everything but lists and dicts. *)
Definition py_hashable (x : json) : bool :=
  match x with
  | JList _ | JDict _ => false
  | _ => true
  end.

(** [x in l] for a Python list [l]. *)
Definition py_in (x : json) (l : list json) : bool :=
  existsb (fun e => py_eq e x) l.

(** [sub in s] for two strings. *)
Definition is_substring (sub s : string) : bool :=
  match String.index 0 sub s with Some _ => true | None => false end.

(** ** Exceptions and results *)

Inductive exn : Type :=
| KeyError
| TypeError
| IndexError
| FetchFailed (payload : json)
| ParameterReadError (payload : json)
| OtherError (what : string).

Inductive result (A : Type) : Type :=
| Ok (a : A)
| Raise (e : exn).
Arguments Ok {A} a.
Arguments Raise {A} e.

Definition rbind {A B : Type} (r : result A) (k : A -> result B) : result B :=
  match r with
  | Ok a => k a
  | Raise e => Raise e
  end.

Declare Scope result_scope.
Delimit Scope result_scope with result.
Notation "x <- r ;; k" := (rbind r (fun x => k))
  (at level 100, r at next level, right associativity) : result_scope.

Fixpoint rmap {A B : Type} (f : A -> result B) (l : list A) : result (list B) :=
  match l with
  | [] => Ok []
  | a :: l' =>
      (b <- f a ;;
       bs <- rmap f l' ;;
       Ok (b :: bs))%result
  end.

(** ** Python operations on JSON values *)

(** [c[k]] for a string [k]. *)
Definition getitem (c : json) (k : string) : result json :=
  match c with
  | JDict d =>
      match dict_get k d with
      | Some v => Ok v
      | None => Raise KeyError
      end
  | _ => Raise TypeError
  end.

(** [c[0]]. A decoded JSON object has string keys only, so [0] is never one
    of them. *)
Definition getitem0 (c : json) : result json :=
  match c with
  | JList (x :: _) => Ok x
  | JList [] => Raise IndexError
  | JStr (String a _) => Ok (JStr (String a EmptyString))
  | JStr EmptyString => Raise IndexError
  | JDict _ => Raise KeyError
  | _ => Raise TypeError
  end.

(** [k in c] for a string [k]. *)
Definition contains (k : string) (c : json) : result bool :=
  match c with
  | JDict d => Ok (dict_mem k d)
  | JList l => Ok (py_in (JStr k) l)
  | JStr s => Ok (is_substring k s)
  | _ => Raise TypeError
  end.

(** The elements [for x in c] visits. *)
Definition iter (c : json) : result (list json) :=
  match c with
  | JList l => Ok l
  | JDict d => Ok (map (fun kv => JStr (fst kv)) d)
  | JStr s => Ok (map (fun a => JStr (String a EmptyString)) (list_ascii_of_string s))
  | _ => Raise TypeError
  end.

(** [c[k] = v] for a string [k]. *)
Definition setitem (c : json) (k : string) (v : json) : result json :=
  match c with
  | JDict d => Ok (JDict (dict_set k v d))
  | _ => Raise TypeError
  end.

(** A Python [dict] with JSON keys, built by the client itself (the unit
    lookup of [_map_view]). Keys are compared with [==]; an unhashable key
    raises [TypeError]. *)
Definition pydict : Type := list (json * json).

Fixpoint pydict_find (k : json) (d : pydict) : option json :=
  match d with
  | [] => None
  | (k', v) :: d' => if py_eq k' k then Some v else pydict_find k d'
  end.

Fixpoint pydict_store (k v : json) (d : pydict) : pydict :=
  match d with
  | [] => [(k, v)]
  | (k', v') :: d' =>
      if py_eq k' k then (k', v) :: d' else (k', v') :: pydict_store k v d'
  end.

(** [dict(pairs)] *)
Fixpoint pydict_of (pairs : list (json * json)) (acc : pydict) : result pydict :=
  match pairs with
  | [] => Ok acc
  | (k, v) :: rest =>
      if py_hashable k then pydict_of rest (pydict_store k v acc)
      else Raise TypeError
  end.

(** [k in d] *)
Definition pydict_contains (k : json) (d : pydict) : result bool :=
  if py_hashable k then
    Ok (match pydict_find k d with Some _ => true | None => false end)
  else Raise TypeError.

(** [d[k]] *)
Definition pydict_getitem (d : pydict) (k : json) : result json :=
  if py_hashable k then
    match pydict_find k d with
    | Some v => Ok v
    | None => Raise KeyError
    end
  else Raise TypeError.

(** ** Constants and data holders *)

(** The names [wolf_client.py] imports from [wolf_comm.constants]. That
    module is not part of the sources at hand, so the development is
    parametric in them: every definition below takes them from this class. *)
Class Constants : Type := {
  BASE_URL_PORTAL : string;
  GATEWAY_ID : string;
  NAME : string;
  SYSTEM_ID : string;
  MENU_ITEMS : string;
  TAB_VIEWS : string;
  BUNDLE_ID : string;
  BUNDLE : string;
  VALUE_ID_LIST : string;
  GUI_ID_CHANGED : string;
  SESSION_ID : string;
  VALUE_ID : string;
  VALUE : string;
  STATE : string;
  VALUES : string;
  PARAMETER_ID : string;
  UNIT : string;
  CELSIUS_TEMPERATURE : string;
  BAR : string;
  PERCENTAGE : string;
  LIST_ITEMS : string;
  DISPLAY_TEXT : string;
  PARAMETER_DESCRIPTORS : string;
  TAB_NAME : string;
  HOUR : string;
  LAST_ACCESS : string;
  ERROR_CODE : string;
  ERROR_TYPE : string;
  ERROR_MESSAGE : string;
  ERROR_READ_PARAMETER : string
}.

(** Modelled from the spec: [wolf_comm.models] is not part of the sources at
    hand. A list item is a (raw value, display text) pair; a value record
    has a value id, a raw value and a state; a parameter ([Parameter] in
    the source, a reserved word here) is one of six variants, all with a
    value id, a name, the owning tab's name and a parameter id, the list
    variant with its items. The fields hold what the constructors are called
    with, in the order [wolf_client.py] passes it. *)
Inductive ListItem : Type :=
| MkListItem (value : json) (name : json).

Inductive Value : Type :=
| MkValue (value_id : json) (value : json) (state : json).

Inductive WolfParameter : Type :=
| SimpleParameter (value_id name parent parameter_id : json)
| Temperature (value_id name parent parameter_id : json)
| Pressure (value_id name parent parameter_id : json)
| PercentageParameter (value_id name parent parameter_id : json)
| HoursParameter (value_id name parent parameter_id : json)
| ListItemParameter (value_id name parent : json) (items : list ListItem)
                    (parameter_id : json).

Definition value_id (p : WolfParameter) : json :=
  match p with
  | SimpleParameter v _ _ _ | Temperature v _ _ _ | Pressure v _ _ _
  | PercentageParameter v _ _ _ | HoursParameter v _ _ _
  | ListItemParameter v _ _ _ _ => v
  end.

Definition name (p : WolfParameter) : json :=
  match p with
  | SimpleParameter _ n _ _ | Temperature _ n _ _ | Pressure _ n _ _
  | PercentageParameter _ n _ _ | HoursParameter _ n _ _
  | ListItemParameter _ n _ _ _ => n
  end.

(** ** The descriptor mapper and the view mapper *)

Section Mapping.
Context `{Constants}.
Local Open Scope result_scope.

(** [ListItem(list_item[VALUE], list_item[DISPLAY_TEXT])] *)
Definition map_list_item (list_item : json) : result ListItem :=
  v <- getitem list_item VALUE ;;
  t <- getitem list_item DISPLAY_TEXT ;;
  Ok (MkListItem v t).

Definition _map_parameter (parameter : json) (parent : json) : result WolfParameter :=
  value_id <- getitem parameter VALUE_ID ;;
  name <- getitem parameter NAME ;;
  parameter_id <- getitem parameter PARAMETER_ID ;;
  has_unit <- contains UNIT parameter ;;
  if has_unit : bool then
    unit <- getitem parameter UNIT ;;
    if py_eq unit (JStr CELSIUS_TEMPERATURE) then
      Ok (Temperature value_id name parent parameter_id)
    else if py_eq unit (JStr BAR) then
      Ok (Pressure value_id name parent parameter_id)
    else if py_eq unit (JStr PERCENTAGE) then
      Ok (PercentageParameter value_id name parent parameter_id)
    else if py_eq unit (JStr HOUR) then
      Ok (HoursParameter value_id name parent parameter_id)
    else
      Ok (SimpleParameter value_id name parent parameter_id)
  else
    has_items <- contains LIST_ITEMS parameter ;;
    if has_items : bool then
      raw <- getitem parameter LIST_ITEMS ;;
      elems <- iter raw ;;
      items <- rmap map_list_item elems ;;
      Ok (ListItemParameter value_id name parent items parameter_id)
    else
      Ok (SimpleParameter value_id name parent parameter_id).

(** The comprehension
    [[(unit['valueId'], unit['unit']) for unit in ... if 'unit' in unit]]. *)
Fixpoint unit_pairs (entries : list json) : result (list (json * json)) :=
  match entries with
  | [] => Ok []
  | unit :: rest =>
      keep <- contains "unit" unit ;;
      if keep : bool then
        k <- getitem unit "valueId" ;;
        v <- getitem unit "unit" ;;
        ps <- unit_pairs rest ;;
        Ok ((k, v) :: ps)
      else unit_pairs rest
  end.

(** One turn of the loop over [view[PARAMETER_DESCRIPTORS]] in the
    schema-diagram branch: the descriptor gets the looked-up unit written
    into it, then it is mapped. *)
Definition map_with_units (units : pydict) (view : json) (param : json)
  : result WolfParameter :=
  vid <- getitem param VALUE_ID ;;
  known <- pydict_contains vid units ;;
  param' <- (if known : bool then
               vid' <- getitem param VALUE_ID ;;
               u <- pydict_getitem units vid' ;;
               setitem param UNIT u
             else Ok param) ;;
  tab <- getitem view TAB_NAME ;;
  _map_parameter param' tab.

Definition _map_view (view : json) : result (list WolfParameter) :=
  has_schema <- contains "SVGHeatingSchemaConfigDevices" view ;;
  if has_schema : bool then
    devices <- getitem view "SVGHeatingSchemaConfigDevices" ;;
    device <- getitem0 devices ;;
    parameters <- getitem device "parameters" ;;
    entries <- iter parameters ;;
    pairs <- unit_pairs entries ;;
    units <- pydict_of pairs [] ;;
    descriptors <- getitem view PARAMETER_DESCRIPTORS ;;
    params <- iter descriptors ;;
    rmap (map_with_units units view) params
  else
    descriptors <- getitem view PARAMETER_DESCRIPTORS ;;
    params <- iter descriptors ;;
    rmap (fun p => tab <- getitem view TAB_NAME ;; _map_parameter p tab) params.

(** ** Flattening, the loops of [fetch_parameters] *)

(** The inner loop [for val in sublist], on the three lists it appends
    to. *)
Fixpoint flatten_sublist (sublist : list WolfParameter)
    (distinct_ids distinct_names : list json) (flattened : list WolfParameter)
  : list json * list json * list WolfParameter :=
  match sublist with
  | [] => (distinct_ids, distinct_names, flattened)
  | val :: rest =>
      if negb (py_in (value_id val) distinct_ids)
         && negb (py_in (name val) distinct_names)
      then flatten_sublist rest (distinct_ids ++ [value_id val])
                           (distinct_names ++ [name val]) (flattened ++ [val])
      else flatten_sublist rest distinct_ids distinct_names flattened
  end.

(** The outer loop [for sublist in result]; [distinct_names] starts empty
    at every turn. *)
Fixpoint flatten_loop (result : list (list WolfParameter))
    (distinct_ids : list json) (flattened : list WolfParameter) : list WolfParameter :=
  match result with
  | [] => flattened
  | sublist :: rest =>
      let '(ids, _, fl) := flatten_sublist sublist distinct_ids [] flattened in
      flatten_loop rest ids fl
  end.

(** [result.reverse()] and the two loops. *)
Definition flatten (result : list (list WolfParameter)) : list WolfParameter :=
  flatten_loop (rev result) [] [].

(** What [fetch_parameters] does with the description it fetched. *)
Definition parameters_of (desc : json) : result (list WolfParameter) :=
  menu_items <- getitem desc MENU_ITEMS ;;
  menu_item <- getitem0 menu_items ;;
  tab_views <- getitem menu_item TAB_VIEWS ;;
  views <- iter tab_views ;;
  result <- rmap _map_view views ;;
  Ok (flatten result).

(** What [fetch_value] does with the response it fetched, apart from
    storing [last_access]: the error check, then the comprehension. *)
Definition check_error (res : json) : result unit :=
  has_code <- contains ERROR_CODE res ;;
  has_type <- (if has_code : bool then Ok true else contains ERROR_TYPE res) ;;
  if has_type : bool then
    has_msg <- contains ERROR_MESSAGE res ;;
    is_read <- (if has_msg : bool then
                  msg <- getitem res ERROR_MESSAGE ;;
                  Ok (py_eq msg (JStr ERROR_READ_PARAMETER))
                else Ok false) ;;
    if is_read : bool then Raise (ParameterReadError res)
    else Raise (FetchFailed res)
  else Ok tt.

(** [[Value(v[VALUE_ID], v[VALUE], v[STATE]) for v in ... if VALUE in v]] *)
Fixpoint values_of (entries : list json) : result (list Value) :=
  match entries with
  | [] => Ok []
  | v :: rest =>
      keep <- contains VALUE v ;;
      if keep : bool then
        i <- getitem v VALUE_ID ;;
        x <- getitem v VALUE ;;
        s <- getitem v STATE ;;
        vs <- values_of rest ;;
        Ok (MkValue i x s :: vs)
      else values_of rest
  end.
End Mapping.

(** ** The client and the world it talks to *)

(** Modelled from the spec: [wolf_comm.token_auth] is not part of the
    sources at hand. Tokens carry the access token string and an expiry
    timestamp; whether they have expired is asked of the world, which owns
    the clock. *)
Record Tokens : Type := MkTokens {
  access_token : string;
  expire_date : Z
}.

(** Header dictionaries: [{**a, **b}] is [b ∪ a], the union that prefers
    its left operand. *)
Definition Headers : Type := gmap string string.

(** The keyword arguments [__request] is called with. *)
Record Kwargs : Type := MkKwargs {
  kw_headers : option Headers;
  kw_params : option json;
  kw_json : option json
}.

(** What the transport hands back: the status code and what [.json()]
    yields. *)
Record Response : Type := MkResponse {
  status_code : Z;
  body : result json
}.

(** Points in time, in microseconds. *)
Definition seconds (n : Z) : Z := (n * 1000000)%Z.

(** Modelled from the spec: [wolf_comm.helpers] is not part of the sources
    at hand; [bearer_header] turns an access token into the bearer-auth
    header dictionary. *)
Class Helpers : Type := {
  bearer_header : string -> Headers
}.

(** The fields [__init__] sets. *)
Record WolfClient : Type := MkWolfClient {
  tokens : option Tokens;
  session_id : json;
  last_access : json;
  last_failed : bool;
  last_session_refesh : option Z
}.

(** The client [__init__] returns. *)
Definition init : WolfClient :=
  {| tokens := None; session_id := JNull; last_access := JNull;
     last_failed := false; last_session_refesh := None |}.

(** The collaborators of the client, as transitions of a world [W]:
    [token_auth.token], [create_session], [update_session],
    [Tokens.is_expired], [datetime.datetime.now] and the transport's
    [request]. The transport object [self.client] lives in the world. *)
Class World (W : Type) : Type := {
  w_token : W -> result Tokens * W;
  w_create_session : string -> W -> result json * W;
  w_update_session : string -> json -> W -> result unit * W;
  w_is_expired : Tokens -> W -> bool * W;
  w_now : W -> Z * W;
  w_request : string -> string -> Kwargs -> W -> result Response * W
}.

(** One call to a collaborator, with what it answered. *)
Inductive event : Type :=
| EvToken (r : result Tokens)
| EvCreateSession (access_token : string) (r : result json)
| EvUpdateSession (access_token : string) (session_id : json) (r : result unit)
| EvIsExpired (t : Tokens) (b : bool)
| EvNow (t : Z)
| EvRequest (method url : string) (kw : Kwargs) (r : result Response).

(** ** The monad of client code *)

(** Where a piece of client code leaves things: its result or exception,
    the client's fields, the world, and the calls it made in order. *)
Record Outcome (W A : Type) : Type := MkOutcome {
  res : result A;
  self : WolfClient;
  world : W;
  evs : list event
}.
Arguments MkOutcome {W A}.
Arguments res {W A}.
Arguments self {W A}.
Arguments world {W A}.
Arguments evs {W A}.

Section Client.
Context `{Constants} `{Helpers} {W : Type} `{World W}.

Definition M (A : Type) : Type := WolfClient -> W -> Outcome W A.

Definition ret {A : Type} (a : A) : M A :=
  fun c w => MkOutcome (Ok a) c w [].

Definition raise {A : Type} (e : exn) : M A :=
  fun c w => MkOutcome (Raise e) c w [].

Definition bind {A B : Type} (m : M A) (k : A -> M B) : M B :=
  fun c w =>
    match m c w with
    | MkOutcome (Ok a) c' w' ev =>
        match k a c' w' with
        | MkOutcome r c'' w'' ev' => MkOutcome r c'' w'' (ev ++ ev')
        end
    | MkOutcome (Raise e) c' w' ev => MkOutcome (Raise e) c' w' ev
    end.

(** [try: m except FetchFailed as e: h e] *)
Definition try_except_FetchFailed {A : Type} (m : M A) (h : exn -> M A) : M A :=
  fun c w =>
    match m c w with
    | MkOutcome (Raise (FetchFailed p)) c' w' ev =>
        match h (FetchFailed p) c' w' with
        | MkOutcome r c'' w'' ev' => MkOutcome r c'' w'' (ev ++ ev')
        end
    | o => o
    end.

Definition lift {A : Type} (r : result A) : M A :=
  fun c w => MkOutcome r c w [].

Definition get {A : Type} (f : WolfClient -> A) : M A :=
  fun c w => MkOutcome (Ok (f c)) c w [].

Definition modify (f : WolfClient -> WolfClient) : M unit :=
  fun c w => MkOutcome (Ok tt) (f c) w [].

Definition set_tokens (t : option Tokens) : M unit :=
  modify (fun c => MkWolfClient t (session_id c) (last_access c)
                                (last_failed c) (last_session_refesh c)).
Definition set_session_id (s : json) : M unit :=
  modify (fun c => MkWolfClient (tokens c) s (last_access c)
                                (last_failed c) (last_session_refesh c)).
Definition set_last_access (a : json) : M unit :=
  modify (fun c => MkWolfClient (tokens c) (session_id c) a
                                (last_failed c) (last_session_refesh c)).
Definition set_last_failed (b : bool) : M unit :=
  modify (fun c => MkWolfClient (tokens c) (session_id c) (last_access c)
                                b (last_session_refesh c)).
Definition set_last_session_refesh (t : option Z) : M unit :=
  modify (fun c => MkWolfClient (tokens c) (session_id c) (last_access c)
                                (last_failed c) t).

(** Calls to the collaborators; each leaves its event. *)
Definition call_token : M Tokens :=
  fun c w => let '(r, w') := w_token w in MkOutcome r c w' [EvToken r].
Definition call_create_session (tok : string) : M json :=
  fun c w => let '(r, w') := w_create_session tok w in
             MkOutcome r c w' [EvCreateSession tok r].
Definition call_update_session (tok : string) (sid : json) : M unit :=
  fun c w => let '(r, w') := w_update_session tok sid w in
             MkOutcome r c w' [EvUpdateSession tok sid r].
Definition call_is_expired (t : Tokens) : M bool :=
  fun c w => let '(b, w') := w_is_expired t w in
             MkOutcome (Ok b) c w' [EvIsExpired t b].
Definition call_now : M Z :=
  fun c w => let '(t, w') := w_now w in MkOutcome (Ok t) c w' [EvNow t].
Definition call_request (method url : string) (kw : Kwargs) : M Response :=
  fun c w => let '(r, w') := w_request method url kw w in
             MkOutcome r c w' [EvRequest method url kw r].

Declare Scope client_scope.
Delimit Scope client_scope with client.
Notation "x <- m ;; k" := (bind m (fun x => k))
  (at level 100, m at next level, right associativity) : client_scope.
Notation "m ;;; k" := (bind m (fun _ => k))
  (at level 100, right associativity) : client_scope.
Local Open Scope client_scope.

(** [self.tokens.access_token] *)
Definition self_access_token : M string :=
  t <- get tokens ;;
  match t with
  | Some t => ret (access_token t)
  | None => raise (OtherError "AttributeError")
  end.

(** ** [wolf_client.py], lines 56 to 93 *)

Definition __authorize_and_session : M unit :=
  t <- call_token ;;
  set_tokens (Some t) ;;;
  tok <- self_access_token ;;
  sid <- call_create_session tok ;;
  set_session_id sid.

Definition __execute (headers : Headers) (kwargs : Kwargs) (method path : string)
  : M Response :=
  call_request method (String.append BASE_URL_PORTAL (String.append "/" path))
               (MkKwargs (Some headers) (kw_params kwargs) (kw_json kwargs)).

(** Lines 57 and 58: [if self.tokens is None or self.tokens.is_expired()]. *)
Definition ensure_authenticated : M unit :=
  t <- get tokens ;;
  stale <- match t with
           | None => ret true
           | Some t => call_is_expired t
           end ;;
  if stale : bool then __authorize_and_session else ret tt.

(** Lines 67 to 70: the throttled keepalive. *)
Definition refresh_session : M unit :=
  stamp <- get last_session_refesh ;;
  due <- match stamp with
         | None => ret true
         | Some s => (now <- call_now ;; ret (Z.leb s now))
         end ;;
  if due : bool then
    tok <- self_access_token ;;
    sid <- get session_id ;;
    call_update_session tok sid ;;;
    now <- call_now ;;
    set_last_session_refesh (Some (now + seconds 60)%Z)
  else ret tt.

(** Lines 73 to 86: what becomes of the first response. *)
Definition handle_response (headers : Headers) (kwargs : Kwargs) (method path : string)
    (resp : Response) : M json :=
  if Z.eqb (status_code resp) 401 || Z.eqb (status_code resp) 500 then
    __authorize_and_session ;;;
    tok <- self_access_token ;;
    let headers := headers ∪ bearer_header tok in
    try_except_FetchFailed
      (execution <- __execute headers kwargs method path ;;
       lift (body execution))
      (fun e => set_last_failed true ;;; raise e)
  else
    set_last_failed false ;;;
    lift (body resp).

Definition __request (method path : string) (kwargs : Kwargs) : M json :=
  ensure_authenticated ;;;
  tok <- self_access_token ;;
  let headers := match kw_headers kwargs with
                 | None => bearer_header tok
                 | Some supplied => supplied ∪ bearer_header tok
                 end in
  refresh_session ;;;
  resp <- __execute headers kwargs method path ;;
  handle_response headers kwargs method path resp.

(** ** [fetch_parameters] and [fetch_value] *)

(** A dict display [{k1: v1, k2: v2, ...}]. *)
Definition dict_display (members : list (string * json)) : json :=
  JDict (fold_left (fun d kv => dict_set (fst kv) (snd kv) d) members []).

Definition fetch_parameters (gateway_id system_id : json) : M (list WolfParameter) :=
  let payload := dict_display [(GATEWAY_ID, gateway_id); (SYSTEM_ID, system_id)] in
  desc <- __request "get" "api/portal/GetGuiDescriptionForGateway"
                    (MkKwargs None (Some payload) None) ;;
  lift (parameters_of desc).

(** Lines 139 to 148: the body of the values request. *)
Definition values_payload (c : WolfClient) (gateway_id system_id : json)
    (parameters : list WolfParameter) : json :=
  dict_display
    [(BUNDLE_ID, JInt 1000); (BUNDLE, JBool false);
     (VALUE_ID_LIST, JList (map value_id parameters));
     (GATEWAY_ID, gateway_id); (SYSTEM_ID, system_id);
     (GUI_ID_CHANGED, JBool false); (SESSION_ID, session_id c);
     (LAST_ACCESS, last_access c)].

Definition values_kwargs (c : WolfClient) (gateway_id system_id : json)
    (parameters : list WolfParameter) : Kwargs :=
  MkKwargs (Some {[ "Content-Type" := "application/json" ]}) None
           (Some (values_payload c gateway_id system_id parameters)).

Definition fetch_value (gateway_id system_id : json) (parameters : list WolfParameter)
  : M (list Value) :=
  fun c =>
    (res <- __request "post" "api/portal/GetParameterValues"
                      (values_kwargs c gateway_id system_id parameters) ;;
     lift (check_error res) ;;;
     la <- lift (getitem res LAST_ACCESS) ;;
     set_last_access la ;;;
     values <- lift (getitem res VALUES) ;;
     entries <- lift (iter values) ;;
     lift (values_of entries)) c.

End Client.

(** ** Entries of a values response *)

Section Entries.
Context `{Constants}.

(** The entry has a raw value member. *)
Definition has_value (e : json) : bool :=
  match e with
  | JDict m => dict_mem VALUE m
  | _ => false
  end.

(** The entry is an object, and one with a raw value also has a value id
    and a state. *)
Definition entry_ok (e : json) : bool :=
  match e with
  | JDict m => if dict_mem VALUE m then dict_mem VALUE_ID m && dict_mem STATE m else true
  | _ => false
  end.

(** The entry's record. *)
Definition value_of (e : json) (v : Value) : Prop :=
  exists m i x st,
    e = JDict m /\ dict_get VALUE_ID m = Some i /\ dict_get VALUE m = Some x /\
    dict_get STATE m = Some st /\ v = MkValue i x st.
End Entries.

(** ** Reading a trace *)

Definition is_request (e : event) : bool :=
  match e with EvRequest _ _ _ _ => true | _ => false end.

Definition is_token (e : event) : bool :=
  match e with EvToken _ => true | _ => false end.







(** The keyword arguments of the HTTP calls, in order. *)
Fixpoint request_kwargs (l : list event) : list Kwargs :=
  match l with
  | [] => []
  | EvRequest _ _ kw _ :: l' => kw :: request_kwargs l'
  | _ :: l' => request_kwargs l'
  end.


(** No two elements of a list are equal for Python's [==], the earlier one
    on the left as [in] compares them. *)
Definition py_distinct (l : list json) : Prop :=
  forall i j x y, (i < j)%nat -> l !! i = Some x -> l !! j = Some y -> py_eq x y = false.

(** ** A scripted world and sample constants, for the examples *)

(** An answer a collaborator is scripted to give. *)
Inductive answer : Type :=
| AToken (r : result Tokens)
| ASession (r : result json)
| AKeepalive (r : result unit)
| AExpired (b : bool)
| ANow (t : Z)
| AResponse (r : result Response).

(** The world that answers from a script, one entry per call; a call the
    script has no matching entry for raises. *)
#[global] Instance scripted : World (list answer) := {|
  w_token s :=
    match s with AToken r :: s' => (r, s') | _ => (Raise (OtherError "script"), s) end;
  w_create_session _ s :=
    match s with ASession r :: s' => (r, s') | _ => (Raise (OtherError "script"), s) end;
  w_update_session _ _ s :=
    match s with AKeepalive r :: s' => (r, s') | _ => (Raise (OtherError "script"), s) end;
  w_is_expired _ s :=
    match s with AExpired b :: s' => (b, s') | _ => (true, s) end;
  w_now s :=
    match s with ANow t :: s' => (t, s') | _ => (0%Z, s) end;
  w_request _ _ _ s :=
    match s with AResponse r :: s' => (r, s') | _ => (Raise (OtherError "script"), s) end
|}.

(** One assignment of the constants: the member names of section 6 of the
    specification and, where it spells none out, a stand-in. *)
Definition sample_constants : Constants := {|
  BASE_URL_PORTAL := "https://portal.example/portal";
  GATEWAY_ID := "gatewayId";
  NAME := "name";
  SYSTEM_ID := "systemId";
  MENU_ITEMS := "menuItems";
  TAB_VIEWS := "tabViews";
  BUNDLE_ID := "bundleId";
  BUNDLE := "bundle";
  VALUE_ID_LIST := "valueIdList";
  GUI_ID_CHANGED := "guiIdChanged";
  SESSION_ID := "sessionId";
  VALUE_ID := "valueId";
  VALUE := "value";
  STATE := "state";
  VALUES := "values";
  PARAMETER_ID := "parameterId";
  UNIT := "unit";
  CELSIUS_TEMPERATURE := "degC";
  BAR := "bar";
  PERCENTAGE := "%";
  LIST_ITEMS := "listItems";
  DISPLAY_TEXT := "displayText";
  PARAMETER_DESCRIPTORS := "parameterDescriptors";
  TAB_NAME := "tabName";
  HOUR := "h";
  LAST_ACCESS := "lastAccess";
  ERROR_CODE := "errorCode";
  ERROR_TYPE := "errorType";
  ERROR_MESSAGE := "errorMessage";
  ERROR_READ_PARAMETER := "read parameter failed"
|}.

(** A bearer-auth header dictionary with the one member [Authorization]. *)
Definition sample_helpers : Helpers := {|
  bearer_header tok := {[ "Authorization" := String.append "Bearer " tok ]}
|}.

(** A parameter descriptor [{valueId, name, parameterId}] and a view
    [{tabName, parameterDescriptors}] in the sample constants. *)
Definition sample_descriptor (vid : Z) (nm : string) : json :=
  JDict [("valueId", JInt vid); ("name", JStr nm); ("parameterId", JInt (vid + 1000))].

Definition sample_view (tab : string) (descriptors : list json) : json :=
  JDict [("tabName", JStr tab); ("parameterDescriptors", JList descriptors)].

Definition sample_description (views : list json) : json :=
  JDict [("menuItems", JList [JDict [("tabViews", JList views)]])].

Definition ok_response (b : json) : answer :=
  AResponse (Ok (MkResponse 200 (Ok b))).

(** ** The flattening loops as functions of their input *)

(** What the inner loop appends, given the ids and names seen so far. *)
Fixpoint kept (sublist : list WolfParameter) (ids names : list json)
  : list WolfParameter :=
  match sublist with
  | [] => []
  | val :: rest =>
      if negb (py_in (value_id val) ids) && negb (py_in (name val) names)
      then val :: kept rest (ids ++ [value_id val]) (names ++ [name val])
      else kept rest ids names
  end.

(** What the outer loop appends at each of its turns. *)
Fixpoint segments (result : list (list WolfParameter)) (ids : list json)
  : list (list WolfParameter) :=
  match result with
  | [] => []
  | sublist :: rest =>
      let k := kept sublist ids [] in
      k :: segments rest (ids ++ map value_id k)
  end.

(** ** The unit lookup, in the specification's words *)

(** "A lookup from value id to unit drawn from that block's parameter
    entries (only entries that carry a unit)": the unit of the last entry
    that carries a unit and whose value id equals [vid]. *)
Fixpoint schema_unit (entries : list json) (vid : json) : option json :=
  match entries with
  | [] => None
  | e :: rest =>
      match schema_unit rest vid with
      | Some u => Some u
      | None =>
          match e with
          | JDict m =>
              match dict_get "unit" m, dict_get "valueId" m with
              | Some u, Some k => if py_eq k vid then Some u else None
              | _, _ => None
              end
          | _ => None
          end
      end
  end.

(** "Inject the resolved unit into each matching descriptor before
    mapping": the descriptor with the looked-up unit written into it, or as
    it is when the lookup has no unit for its value id. *)
Definition enrich `{Constants} (entries : list json) (param : json) : result json :=
  (vid <- getitem param VALUE_ID ;;
   if py_hashable vid then
     match schema_unit entries vid with
     | Some u => setitem param UNIT u
     | None => Ok param
     end
   else Raise TypeError)%result.

(** All keys of the dict are hashable, as the keys of a Python dict are. *)
Definition keys_hashable (d : list (json * json)) : Prop :=
  Forall (fun kv => py_hashable (fst kv) = true) d.

(** The last pair whose key equals [probe]. *)
Fixpoint pairs_lookup (pairs : list (json * json)) (probe : json) : option json :=
  match pairs with
  | [] => None
  | (k, v) :: rest =>
      match pairs_lookup rest probe with
      | Some u => Some u
      | None => if py_eq k probe then Some v else None
      end
  end.

(** Equal hashable values have the same key: a boolean counts as the
    integer it is. *)
Definition py_key (x : json) : json :=
  match x with
  | JBool b => JInt (Z.b2z b)
  | _ => x
  end.

(** ** Worked inputs *)

(** What a fresh client meets on its first request when everything goes
    well: tokens, a session, the keepalive, the clock, then a response with
    the body [b]. *)
Definition first_request_world (b : json) : list answer :=
  [AToken (Ok (MkTokens "T0" 3600000000)); ASession (Ok (JInt 11));
   AKeepalive (Ok tt); ANow 5; ok_response b].


(** Tab [A] has value id 7 under the name [m]; the later tab [B] has it
    under the name [n], after another parameter that is also called [n]. *)
Definition shadowed_in_last_tab : json :=
  sample_description
    [sample_view "A" [sample_descriptor 7 "m"];
     sample_view "B" [sample_descriptor 5 "n"; sample_descriptor 7 "n"]].

(** A view with the schema-diagram block: value id 3 has no unit of its
    own, the block gives it [bar]; the block's entry for value id 4 carries
    no unit. *)
Definition schema_view : json :=
  JDict [("tabName", JStr "Heating");
         ("parameterDescriptors",
          JList [sample_descriptor 3 "System pressure"; sample_descriptor 4 "Mode"]);
         ("SVGHeatingSchemaConfigDevices",
          JList [JDict [("parameters",
                         JList [JDict [("valueId", JInt 3); ("unit", JStr "bar")];
                                JDict [("valueId", JInt 4)]])]])].

(** A values response that has the read-parameter message but neither an
    error code nor an error type. *)
Definition message_only_payload : json :=
  JDict [("errorMessage", JStr "read parameter failed");
         ("lastAccess", JStr "2024-01-01T00:00:00");
         ("values", JList [])].

(** A values response with three entries, the second without a value. *)
Definition three_entries_payload : json :=
  JDict [("lastAccess", JStr "2024-01-01T00:00:00");
         ("values",
          JList [JDict [("valueId", JInt 1); ("value", JStr "21.5"); ("state", JInt 1)];
                 JDict [("valueId", JInt 2); ("state", JInt 4)];
                 JDict [("valueId", JInt 3); ("value", JStr "Off"); ("state", JInt 1)]])].

(** An error response with the read-parameter message. *)
Definition read_error_payload : json :=
  JDict [("errorCode", JInt 2001);
         ("errorMessage", JStr "read parameter failed")].

(** The client after that first request: tokens [T0], session 11, next
    keepalive due 60 seconds after the reading 5. *)
Definition settled_client : WolfClient :=
  {| tokens := Some (MkTokens "T0" 3600000000); session_id := JInt 11;
     last_access := JNull; last_failed := false;
     last_session_refesh := Some 60000005%Z |}.



(** A first request of a fresh client that is answered 401; the
    authenticator then issues the token [T1], the session opener session 12,
    and the second attempt is answered 200 with the body ["done"]. *)
Definition retry_world : list answer :=
  [AToken (Ok (MkTokens "T0" 3600000000)); ASession (Ok (JInt 11));
   AKeepalive (Ok tt); ANow 5;
   AResponse (Ok (MkResponse 401 (Ok JNull)));
   AToken (Ok (MkTokens "T1" 3600000000)); ASession (Ok (JInt 12));
   ok_response (JStr "done")].

(** Two requests of a fresh client. The first is answered 401 and its
    second attempt raises [FetchFailed]; the second is answered 401 and its
    second attempt is answered 200 with the body ["done"]. *)
Definition failed_then_recovered_world : list answer :=
  [AToken (Ok (MkTokens "T0" 3600000000)); ASession (Ok (JInt 11));
   AKeepalive (Ok tt); ANow 5;
   AResponse (Ok (MkResponse 401 (Ok JNull)));
   AToken (Ok (MkTokens "T1" 3600000000)); ASession (Ok (JInt 12));
   AResponse (Raise (FetchFailed JNull));
   AExpired false; ANow 10;
   AResponse (Ok (MkResponse 401 (Ok JNull)));
   AToken (Ok (MkTokens "T2" 3600000000)); ASession (Ok (JInt 13));
   ok_response (JStr "done")].

(** ** The system list, the system state and closing *)

(** The names of [wolf_comm.constants] that only the system list and the
    system state use; like the others they are parameters. *)
Class SystemConstants : Type := {
  ID : string;
  SYSTEM_LIST : string;
  GATEWAY_STATE : string;
  IS_ONLINE : string
}.

(** Modelled from the spec: a device of [wolf_comm.models] has an
    identifier, a gateway identifier and a display name, in the order
    [fetch_system_list] passes them. *)
Inductive Device : Type :=
| MkDevice (id gateway_id name : json).

Section Systems.
Context `{Constants} `{SystemConstants} `{Helpers} {W : Type} `{World W}.

(** [Device(system[ID], system[GATEWAY_ID], system[NAME])] *)
Definition device_of (system : json) : result Device :=
  (i <- getitem system ID ;;
   g <- getitem system GATEWAY_ID ;;
   n <- getitem system NAME ;;
   Ok (MkDevice i g n))%result.

(** Lines 96 to 99. *)
Definition fetch_system_list : WolfClient -> W -> Outcome W (list Device) :=
  bind (__request "get" "api/portal/GetSystemList" (MkKwargs None None None))
       (fun system_list =>
          bind (lift (iter system_list))
               (fun systems => lift (rmap device_of systems))).

(** Line 103: the body of the system state request. *)
Definition state_payload (c : WolfClient) (system_id gateway_id : json) : json :=
  dict_display
    [(SESSION_ID, session_id c);
     (SYSTEM_LIST,
      JList [dict_display [(SYSTEM_ID, system_id); (GATEWAY_ID, gateway_id)]])].

(** [system_state_response[0][GATEWAY_STATE][IS_ONLINE]] *)
Definition is_online_of (system_state_response : json) : result json :=
  (first <- getitem0 system_state_response ;;
   state <- getitem first GATEWAY_STATE ;;
   getitem state IS_ONLINE)%result.

(** Lines 102 to 106. *)
Definition fetch_system_state_list (system_id gateway_id : json)
  : WolfClient -> W -> Outcome W json :=
  fun c =>
    bind (__request "post" "api/portal/GetSystemStateList"
                    (MkKwargs None None (Some (state_payload c system_id gateway_id))))
         (fun system_state_response => lift (is_online_of system_state_response)) c.

(** Lines 130 to 135: the response is logged and dropped. *)
Definition close_system : WolfClient -> W -> Outcome W unit :=
  fun c =>
    bind (__request "post" "api/portal/CloseSystem"
                    (MkKwargs None None (Some (dict_display [(SESSION_ID, session_id c)]))))
         (fun _ => ret tt) c.
End Systems.

(** ** The constructor and the [client] property *)

Section Construction.
Context {T : Type}.

(** The transport attributes [__init__] may set: [_client], and
    [_client_lambda], a callable that builds a transport or raises. An
    attribute that was not set is [None] here. *)
Record Transport (T : Type) : Type := MkTransport {
  _client : option T;
  _client_lambda : option (unit -> result T)
}.
Arguments MkTransport {T}.
Arguments _client {T}.
Arguments _client_lambda {T}.

(** Lines 39 to 54, with [AsyncClient] standing for the object
    [httpx.AsyncClient()] builds; the other fields are those of [init]. *)
Definition __init__ (AsyncClient : T) (client : option T)
    (client_lambda : option (unit -> result T)) : result (Transport T * WolfClient) :=
  match client, client_lambda with
  | Some _, Some _ =>
      Raise (OtherError "RuntimeError: Only one of client and client_lambda is allowed!")
  | Some cl, None => Ok (MkTransport (Some cl) None, init)
  | None, Some f => Ok (MkTransport None (Some f), init)
  | None, None => Ok (MkTransport (Some AsyncClient) None, init)
  end.

(** Lines 29 to 36: the property [client]. *)
Definition client (attrs : Transport T) : result T :=
  match _client attrs with
  | Some cl => Ok cl
  | None =>
      match _client_lambda attrs with
      | Some f => f tt
      | None => Raise (OtherError "RuntimeError: No valid client configuration")
      end
  end.
End Construction.

(** ** More readings of parameters and traces *)

Definition parent (p : WolfParameter) : json :=
  match p with
  | SimpleParameter _ _ t _ | Temperature _ _ t _ | Pressure _ _ t _
  | PercentageParameter _ _ t _ | HoursParameter _ _ t _
  | ListItemParameter _ _ t _ _ => t
  end.

Definition parameter_id (p : WolfParameter) : json :=
  match p with
  | SimpleParameter _ _ _ i | Temperature _ _ _ i | Pressure _ _ _ i
  | PercentageParameter _ _ _ i | HoursParameter _ _ _ i
  | ListItemParameter _ _ _ _ i => i
  end.

(** What the HTTP calls were answered, in order. *)
Fixpoint responses (l : list event) : list (result Response) :=
  match l with
  | [] => []
  | EvRequest _ _ _ r :: l' => r :: responses l'
  | _ :: l' => responses l'
  end.

(** The status is one of the two that make [__request] try again. *)
Definition is_retry_status (sc : Z) : bool := Z.eqb sc 401 || Z.eqb sc 500.

(** The event is no HTTP call, or it is the call [method url] with the
    parameters and the body of [kw]. *)
Definition same_call (method url : string) (kw : Kwargs) (e : event) : Prop :=
  match e with
  | EvRequest m u k _ =>
      m = method /\ u = url /\ kw_params k = kw_params kw /\ kw_json k = kw_json kw
  | _ => True
  end.

(** The name of the system list constants used by the examples. *)
Definition sample_system_constants : SystemConstants := {|
  ID := "id";
  SYSTEM_LIST := "systemList";
  GATEWAY_STATE := "gatewayState";
  IS_ONLINE := "isOnline"
|}.

(** ** Inputs of the further worked runs *)

(** A first poll of a fresh client, then a second poll with unexpired
    tokens at the clock reading 10; both are answered with the three
    entries. *)
Definition two_polls_world : list answer :=
  first_request_world three_entries_payload ++
  [AExpired false; ANow 10; ok_response three_entries_payload].

(** The members of a descriptor that carries a unit of its own. *)
Definition own_unit_descriptor : list (string * json) :=
  [("valueId", JInt 3); ("name", JStr "System pressure");
   ("parameterId", JInt 1003); ("unit", JStr "degC")].

(** A system list with two systems, in the sample constants. *)
Definition two_systems : json :=
  JList [JDict [("id", JInt 7); ("gatewayId", JInt 70); ("name", JStr "Home")];
         JDict [("id", JInt 8); ("gatewayId", JInt 80); ("name", JStr "Cabin")]].

(** * Facts *)

(** ** Python equality on hashable values *)

Lemma py_eq_sym_hashable x y :
  py_hashable y = true -> py_eq x y = py_eq y x.
Proof.
  intros Hy.
  destruct y; try discriminate Hy; destruct x; simpl; try reflexivity.
  - destruct b, b0; reflexivity.
  - apply Z.eqb_sym.
  - apply Z.eqb_sym.
  - apply Z.eqb_sym.
  - apply String.eqb_sym.
Qed.

Lemma py_eq_refl_hashable x : py_hashable x = true -> py_eq x x = true.
Proof.
  destruct x; simpl; try discriminate; intros _.
  - reflexivity.
  - destruct b; reflexivity.
  - apply Z.eqb_refl.
  - apply String.eqb_refl.
Qed.

Lemma py_eq_JStr u s : py_eq u (JStr s) = true <-> u = JStr s.
Proof.
  destruct u; simpl; split; intros E; try discriminate E.
  - apply String.eqb_eq in E. congruence.
  - inversion E. apply String.eqb_refl.
Qed.

Lemma py_in_false x l :
  py_in x l = false <-> forall e, e ∈ l -> py_eq e x = false.
Proof.
  unfold py_in. induction l as [|a l IH]; simpl.
  - split; [intros _ e He; inversion He | reflexivity].
  - rewrite orb_false_iff, IH. split.
    + intros [Ha Hl] e He. apply elem_of_cons in He as [->|He]; auto.
    + intros Hall. split; [|intros e He]; apply Hall; constructor; assumption.
Qed.

(** ** The flattening loops *)

Lemma py_distinct_nil : py_distinct [].
Proof. intros i j x y _ Hi. rewrite lookup_nil in Hi. discriminate. Qed.

Lemma py_distinct_snoc l x :
  py_distinct l -> py_in x l = false -> py_distinct (l ++ [x]).
Proof.
  intros Hd Hx i j a b Hij Hi Hj.
  assert (Hjl : (j < length (l ++ [x]))%nat) by (eapply lookup_lt_Some; eassumption).
  rewrite length_app in Hjl. simpl in Hjl.
  rewrite lookup_app_l in Hi by lia.
  destruct (decide (j < length l)%nat) as [Hlt|Hge].
  - rewrite lookup_app_l in Hj by lia. apply (Hd i j a b); assumption.
  - assert (j = length l) as -> by lia.
    rewrite list_lookup_middle in Hj by reflexivity.
    inversion Hj; subst b.
    eapply py_in_false; [eassumption|].
    eapply list_elem_of_lookup_2; eassumption.
Qed.

Lemma flatten_sublist_kept sublist ids names fl :
  flatten_sublist sublist ids names fl =
  (ids ++ map value_id (kept sublist ids names),
   names ++ map name (kept sublist ids names),
   fl ++ kept sublist ids names).
Proof.
  revert ids names fl.
  induction sublist as [|val rest IH]; intros ids names fl; simpl.
  - rewrite !app_nil_r. reflexivity.
  - destruct (negb (py_in (value_id val) ids) && negb (py_in (name val) names)).
    + rewrite IH. simpl. rewrite <- !app_assoc. reflexivity.
    + apply IH.
Qed.

Lemma flatten_loop_segments result ids fl :
  flatten_loop result ids fl = fl ++ concat (segments result ids).
Proof.
  revert ids fl.
  induction result as [|sublist rest IH]; intros ids fl; simpl.
  - rewrite app_nil_r. reflexivity.
  - rewrite flatten_sublist_kept, IH, <- app_assoc. reflexivity.
Qed.

Lemma flatten_segments result :
  flatten result = concat (segments (rev result) []).
Proof. unfold flatten. apply flatten_loop_segments. Qed.

Lemma kept_sublist sublist ids names : kept sublist ids names `sublist_of` sublist.
Proof.
  revert ids names.
  induction sublist as [|val rest IH]; intros ids names; simpl.
  - constructor.
  - destruct (negb (py_in (value_id val) ids) && negb (py_in (name val) names)).
    + apply sublist_skip, IH.
    + apply sublist_cons, IH.
Qed.

Lemma kept_distinct_ids sublist ids names :
  py_distinct ids -> py_distinct (ids ++ map value_id (kept sublist ids names)).
Proof.
  revert ids names.
  induction sublist as [|val rest IH]; intros ids names Hd; simpl.
  - rewrite app_nil_r. assumption.
  - destruct (negb (py_in (value_id val) ids)) eqn:Hid; simpl.
    + destruct (negb (py_in (name val) names)); simpl.
      * rewrite cons_middle, app_assoc.
        apply IH, py_distinct_snoc; [assumption|].
        apply negb_true_iff. assumption.
      * apply IH. assumption.
    + apply IH. assumption.
Qed.

Lemma kept_distinct_names sublist ids names :
  py_distinct names -> py_distinct (names ++ map name (kept sublist ids names)).
Proof.
  revert ids names.
  induction sublist as [|val rest IH]; intros ids names Hd; simpl.
  - rewrite app_nil_r. assumption.
  - destruct (negb (py_in (value_id val) ids)); simpl.
    + destruct (negb (py_in (name val) names)) eqn:Hn; simpl.
      * rewrite cons_middle, app_assoc.
        apply IH, py_distinct_snoc; [assumption|].
        apply negb_true_iff. assumption.
      * apply IH. assumption.
    + apply IH. assumption.
Qed.

Lemma segments_distinct_ids result ids :
  py_distinct ids ->
  py_distinct (ids ++ map value_id (concat (segments result ids))).
Proof.
  revert ids.
  induction result as [|sublist rest IH]; intros ids Hd; simpl.
  - rewrite app_nil_r. assumption.
  - rewrite map_app, app_assoc.
    apply IH, kept_distinct_ids. assumption.
Qed.

Lemma segments_views result ids :
  Forall2 (fun seg view => seg `sublist_of` view /\ py_distinct (map name seg))
          (segments result ids) result.
Proof.
  revert ids.
  induction result as [|sublist rest IH]; intros ids; simpl; constructor.
  - split; [apply kept_sublist|].
    apply (kept_distinct_names sublist ids []), py_distinct_nil.
  - apply IH.
Qed.

Lemma elem_of_concat {A : Type} (x : A) (ls : list (list A)) :
  x ∈ concat ls <-> exists l, l ∈ ls /\ x ∈ l.
Proof.
  rewrite list_elem_of_In, in_concat. split.
  - intros (l & Hl & Hx). exists l. rewrite !list_elem_of_In. auto.
  - intros (l & Hl & Hx). exists l. rewrite <- !list_elem_of_In. auto.
Qed.

Lemma elem_of_concat_rev {A : Type} (x : A) (ls : list (list A)) :
  x ∈ concat (rev ls) <-> x ∈ concat ls.
Proof.
  rewrite !elem_of_concat. split; intros (l & Hl & Hx); exists l; split; try assumption.
  - apply list_elem_of_In, in_rev, list_elem_of_In. assumption.
  - apply list_elem_of_In, in_rev. rewrite rev_involutive.
    apply list_elem_of_In. assumption.
Qed.

Lemma kept_elem sublist ids names p : p ∈ kept sublist ids names -> p ∈ sublist.
Proof. intros Hp. eapply elem_of_sublist; [eassumption|apply kept_sublist]. Qed.

Lemma segments_elem result ids p :
  p ∈ concat (segments result ids) -> p ∈ concat result.
Proof.
  revert ids. induction result as [|sublist rest IH]; intros ids; simpl.
  - auto.
  - rewrite !elem_of_app. intros [Hp|Hp].
    + left. eapply kept_elem. eassumption.
    + right. eapply IH. eassumption.
Qed.

Lemma kept_app s1 s2 ids names :
  kept (s1 ++ s2) ids names =
  kept s1 ids names ++
  kept s2 (ids ++ map value_id (kept s1 ids names))
          (names ++ map name (kept s1 ids names)).
Proof.
  revert ids names.
  induction s1 as [|val rest IH]; intros ids names; simpl.
  - rewrite !app_nil_r. reflexivity.
  - destruct (negb (py_in (value_id val) ids) && negb (py_in (name val) names)).
    + rewrite IH. simpl. rewrite <- !app_assoc. reflexivity.
    + apply IH.
Qed.

Lemma segments_app r1 r2 ids :
  segments (r1 ++ r2) ids =
  segments r1 ids ++
  segments r2 (ids ++ map value_id (concat (segments r1 ids))).
Proof.
  revert ids.
  induction r1 as [|sublist rest IH]; intros ids; simpl.
  - rewrite app_nil_r. reflexivity.
  - rewrite IH, map_app, app_assoc. reflexivity.
Qed.

(** With distinct ids, two parameters of the list whose ids are equal are
    the same parameter. *)
Lemma py_distinct_same_id (fl : list WolfParameter) a b :
  py_distinct (map value_id fl) ->
  py_hashable (value_id b) = true ->
  a ∈ fl -> b ∈ fl ->
  py_eq (value_id a) (value_id b) = true -> a = b.
Proof.
  intros Hd Hh Ha Hb Heq.
  apply list_elem_of_lookup_1 in Ha as [i Hi].
  apply list_elem_of_lookup_1 in Hb as [j Hj].
  assert (Hi' : map value_id fl !! i = Some (value_id a)).
  { change (map value_id fl) with (value_id <$> fl).
    rewrite list_lookup_fmap, Hi. reflexivity. }
  assert (Hj' : map value_id fl !! j = Some (value_id b)).
  { change (map value_id fl) with (value_id <$> fl).
    rewrite list_lookup_fmap, Hj. reflexivity. }
  destruct (lt_eq_lt_dec i j) as [[Hlt| -> ]|Hgt].
  - rewrite (Hd i j _ _ Hlt Hi' Hj') in Heq. discriminate.
  - congruence.
  - rewrite py_eq_sym_hashable in Heq by assumption.
    rewrite (Hd j i _ _ Hgt Hj' Hi') in Heq. discriminate.
Qed.

Lemma flatten_distinct_ids result : py_distinct (map value_id (flatten result)).
Proof.
  rewrite flatten_segments.
  apply (segments_distinct_ids (rev result) []), py_distinct_nil.
Qed.

(** The parameter that is first in its view with its id and its name, in
    the last view that has the id, is appended. *)
Lemma flatten_keeps earlier later pre post b :
  (forall q, q ∈ concat later ++ pre -> py_eq (value_id q) (value_id b) = false) ->
  (forall q, q ∈ pre -> py_eq (name q) (name b) = false) ->
  b ∈ flatten (earlier ++ (pre ++ b :: post) :: later).
Proof.
  intros Hid Hname.
  rewrite flatten_segments, rev_app_distr. simpl rev.
  rewrite <- app_assoc, segments_app. simpl.
  rewrite concat_app. simpl.
  apply elem_of_app. right. apply elem_of_app. left.
  rewrite kept_app. apply elem_of_app. right. simpl.
  set (seen := concat (segments (rev later) [])).
  set (own := kept pre (map value_id seen) []).
  assert (Hi : py_in (value_id b) (map value_id seen ++ map value_id own) = false).
  { apply py_in_false. intros e He.
    apply elem_of_app in He.
    change (map value_id seen) with (value_id <$> seen) in He.
    change (map value_id own) with (value_id <$> own) in He.
    destruct He as [He|He]; apply list_elem_of_fmap in He as (q & -> & Hq);
      apply Hid, elem_of_app.
    - left. apply elem_of_concat_rev. eapply segments_elem. exact Hq.
    - right. eapply kept_elem. exact Hq. }
  assert (Hn : py_in (name b) (map name own) = false).
  { apply py_in_false. intros e He.
    change (map name own) with (name <$> own) in He.
    apply list_elem_of_fmap in He as (q & -> & Hq).
    apply Hname. eapply kept_elem. exact Hq. }
  rewrite Hi, Hn. simpl. constructor.
Qed.

Section FetchParameters.
Context `{Constants} `{Helpers} {W : Type} `{World W}.



End FetchParameters.



(** C4, as amended: take the last view that has a parameter [b] with a
    given (hashable) value id, and let no parameter before [b] in that view
    have [b]'s value id or [b]'s name. Then [b] is in the flattened list and
    no other parameter with that value id is. *)
Theorem flatten_last_view_wins earlier later pre post b :
  py_hashable (value_id b) = true ->
  Forall (fun q => py_eq (value_id q) (value_id b) = false) (concat later ++ pre) ->
  Forall (fun q => py_eq (name q) (name b) = false) pre ->
  let fl := flatten (earlier ++ (pre ++ b :: post) :: later) in
  b ∈ fl /\
  forall a, py_eq (value_id a) (value_id b) = true -> a <> b -> a ∉ fl.
Proof.
  intros Hh Hid Hname fl.
  assert (Hb : b ∈ fl).
  { apply flatten_keeps.
    - intros q Hq. rewrite Forall_forall in Hid. apply Hid. assumption.
    - intros q Hq. rewrite Forall_forall in Hname. apply Hname. assumption. }
  split; [assumption|].
  intros a Heq Hne Ha. apply Hne.
  eapply py_distinct_same_id; try eassumption.
  apply flatten_distinct_ids.
Qed.

Lemma flatten_last_view_wins_witness :
  let a := SimpleParameter (JInt 7) (JStr "m") (JStr "A") (JInt 1007) in
  let p := SimpleParameter (JInt 5) (JStr "k") (JStr "B") (JInt 1005) in
  let b := SimpleParameter (JInt 7) (JStr "n") (JStr "B") (JInt 1007) in
  let c := SimpleParameter (JInt 9) (JStr "n") (JStr "C") (JInt 1009) in
  (py_hashable (value_id b) = true /\
   Forall (fun q => py_eq (value_id q) (value_id b) = false) (concat [[c]] ++ [p]) /\
   Forall (fun q => py_eq (name q) (name b) = false) [p]) /\
  (b ∈ flatten ([[a]] ++ ([p] ++ b :: []) :: [[c]]) /\
   forall a', py_eq (value_id a') (value_id b) = true -> a' <> b ->
              a' ∉ flatten ([[a]] ++ ([p] ++ b :: []) :: [[c]])).
Proof.
  intros a p b c.
  assert (H1 : py_hashable (value_id b) = true) by reflexivity.
  assert (H2 : Forall (fun q => py_eq (value_id q) (value_id b) = false)
                      (concat [[c]] ++ [p])).
  { simpl. repeat constructor. }
  assert (H3 : Forall (fun q => py_eq (name q) (name b) = false) [p]).
  { repeat constructor. }
  split; [auto|].
  exact (flatten_last_view_wins [[a]] [[c]] [p] [] b H1 H2 H3).
Defined.

(** C4 as stated fails: tabs [A] and [B] both have value id 7, under
    different names, and the flattened list has [A]'s parameter, not
    [B]'s: in [B] an earlier parameter has taken the name. *)
Lemma later_tab_loses_shadowed_name :
  let a := SimpleParameter (JInt 7) (JStr "m") (JStr "A") (JInt 1007) in
  let b := SimpleParameter (JInt 7) (JStr "n") (JStr "B") (JInt 1007) in
  @_map_view sample_constants (sample_view "A" [sample_descriptor 7 "m"]) = Ok [a] /\
  @_map_view sample_constants
     (sample_view "B" [sample_descriptor 5 "n"; sample_descriptor 7 "n"]) =
    Ok [SimpleParameter (JInt 5) (JStr "n") (JStr "B") (JInt 1005); b] /\
  value_id a = value_id b /\ name a <> name b /\
  exists fl,
    res (@fetch_parameters sample_constants sample_helpers _ scripted
           (JInt 1) (JInt 2) init (first_request_world shadowed_in_last_tab)) = Ok fl /\
    a ∈ fl /\ b ∉ fl.
Proof.
  intros a b.
  split; [vm_compute; reflexivity|].
  split; [vm_compute; reflexivity|].
  split; [reflexivity|].
  split; [discriminate|].
  exists [SimpleParameter (JInt 5) (JStr "n") (JStr "B") (JInt 1005); a].
  split; [vm_compute; reflexivity|].
  split.
  - apply elem_of_cons. right. apply elem_of_cons. left. reflexivity.
  - intros Hb.
    apply elem_of_cons in Hb as [Hb|Hb]; [discriminate Hb|].
    apply elem_of_cons in Hb as [Hb|Hb]; [discriminate Hb|].
    inversion Hb.
Qed.

(** ** Keys of the unit lookup *)

Lemma py_eq_key x y :
  py_hashable x = true -> py_hashable y = true ->
  py_eq x y = true <-> py_key x = py_key y.
Proof.
  intros Hx Hy.
  destruct x; try discriminate Hx; destruct y; try discriminate Hy; simpl;
    split; intros E; try discriminate E; try reflexivity.
  - destruct b, b0; try discriminate E; reflexivity.
  - inversion E as [E']. destruct b, b0; try discriminate E'; reflexivity.
  - apply Z.eqb_eq in E. congruence.
  - inversion E. apply Z.eqb_refl.
  - apply Z.eqb_eq in E. congruence.
  - inversion E. apply Z.eqb_refl.
  - apply Z.eqb_eq in E. congruence.
  - inversion E. apply Z.eqb_refl.
  - apply String.eqb_eq in E. congruence.
  - inversion E. apply String.eqb_refl.
Qed.

Lemma py_eq_key_false x y :
  py_hashable x = true -> py_hashable y = true ->
  py_eq x y = false -> py_key x <> py_key y.
Proof.
  intros Hx Hy E K. apply py_eq_key in K; try assumption. congruence.
Qed.

Ltac py_keys :=
  repeat match goal with
    | E : py_eq _ _ = true |- _ => apply py_eq_key in E; [|assumption..]
    | E : py_eq _ _ = false |- _ => apply py_eq_key_false in E; [|assumption..]
    end;
  congruence.

Lemma pydict_store_hashable k v d :
  py_hashable k = true -> keys_hashable d -> keys_hashable (pydict_store k v d).
Proof.
  intros Hk Hd. induction Hd as [|[k' v'] d' Hk' Hd' IH]; simpl.
  - repeat constructor. assumption.
  - destruct (py_eq k' k); constructor; assumption.
Qed.

Lemma pydict_find_store k v d probe :
  py_hashable k = true -> py_hashable probe = true -> keys_hashable d ->
  pydict_find probe (pydict_store k v d) =
  if py_eq k probe then Some v else pydict_find probe d.
Proof.
  intros Hk Hp Hd. induction Hd as [|[k' v'] d' Hk' Hd' IH]; simpl.
  - reflexivity.
  - simpl in Hk'.
    destruct (py_eq k' k) eqn:E1; simpl; [|rewrite IH];
      destruct (py_eq k' probe) eqn:E2; destruct (py_eq k probe) eqn:E3;
      try reflexivity; exfalso; py_keys.
Qed.

Lemma pydict_of_find pairs acc units probe :
  pydict_of pairs acc = Ok units ->
  keys_hashable acc -> py_hashable probe = true ->
  pydict_find probe units =
  match pairs_lookup pairs probe with
  | Some u => Some u
  | None => pydict_find probe acc
  end.
Proof.
  revert acc. induction pairs as [|[k v] rest IH]; intros acc Hof Hacc Hp; simpl in *.
  - congruence.
  - destruct (py_hashable k) eqn:Hk; [|discriminate Hof].
    rewrite (IH _ Hof) by (try apply pydict_store_hashable; assumption).
    rewrite pydict_find_store by assumption.
    destruct (pairs_lookup rest probe); [reflexivity|].
    destruct (py_eq k probe); reflexivity.
Qed.

Lemma unit_pairs_schema entries pairs probe :
  unit_pairs entries = Ok pairs ->
  pairs_lookup pairs probe = schema_unit entries probe.
Proof.
  revert pairs. induction entries as [|e rest IH]; intros pairs Hu; simpl in *.
  - inversion Hu. reflexivity.
  - unfold rbind in Hu.
    destruct (contains "unit" e) as [keep|] eqn:Hc; [|discriminate Hu].
    destruct keep.
    + destruct (getitem e "valueId") as [k|] eqn:Hk; [|discriminate Hu].
      destruct (getitem e "unit") as [v|] eqn:Hv; [|discriminate Hu].
      destruct (unit_pairs rest) as [ps|]; [|discriminate Hu].
      inversion Hu; subst pairs. simpl. rewrite (IH ps eq_refl).
      destruct e; try discriminate Hk. simpl in Hk, Hv.
      destruct (dict_get "valueId" d); [|discriminate Hk].
      destruct (dict_get "unit" d); [|discriminate Hv].
      inversion Hk; inversion Hv; subst. reflexivity.
    + rewrite (IH pairs Hu).
      destruct (schema_unit rest probe); [reflexivity|].
      destruct e; try reflexivity.
      simpl in Hc. unfold dict_mem in Hc.
      destruct (dict_get "unit" d); [discriminate Hc|reflexivity].
Qed.

Lemma rmap_Forall2 {A B : Type} (f : A -> result B) l l' :
  rmap f l = Ok l' -> Forall2 (fun a b => f a = Ok b) l l'.
Proof.
  revert l'. induction l as [|a l IH]; intros l' Hr; simpl in Hr.
  - inversion Hr. constructor.
  - unfold rbind in Hr.
    destruct (f a) as [b|] eqn:Hb; [|discriminate Hr].
    destruct (rmap f l) as [bs|]; [|discriminate Hr].
    inversion Hr. constructor; auto.
Qed.

(** ** The descriptor mapper *)

Section MapperFacts.
Context `{Constants}.

Lemma map_list_items elems (pairs : list (json * json)) :
  Forall2 (fun e vt => getitem e VALUE = Ok (fst vt) /\ getitem e DISPLAY_TEXT = Ok (snd vt))
          elems pairs ->
  rmap map_list_item elems = Ok (map (fun vt => MkListItem (fst vt) (snd vt)) pairs).
Proof.
  induction 1 as [|e vt elems pairs [Hv Ht] _ IH]; simpl.
  - reflexivity.
  - unfold map_list_item at 1. rewrite Hv, Ht. simpl. rewrite IH. reflexivity.
Qed.

Lemma dict_mem_get (k : string) (d : list (string * json)) :
  dict_mem k d = match dict_get k d with Some _ => true | None => false end.
Proof. reflexivity. Qed.

(** A descriptor with its three identity members, and a unit. *)
Lemma map_parameter_unit d parent vid nm pid u :
  dict_get VALUE_ID d = Some vid -> dict_get NAME d = Some nm ->
  dict_get PARAMETER_ID d = Some pid -> dict_get UNIT d = Some u ->
  _map_parameter (JDict d) parent =
  Ok (if py_eq u (JStr CELSIUS_TEMPERATURE) then Temperature vid nm parent pid
      else if py_eq u (JStr BAR) then Pressure vid nm parent pid
      else if py_eq u (JStr PERCENTAGE) then PercentageParameter vid nm parent pid
      else if py_eq u (JStr HOUR) then HoursParameter vid nm parent pid
      else SimpleParameter vid nm parent pid).
Proof.
  intros Hv Hn Hp Hu. unfold _map_parameter. simpl.
  rewrite Hv, Hn, Hp. simpl. rewrite dict_mem_get, Hu. simpl.
  repeat match goal with |- context [if ?b then _ else _] => destruct b end;
    reflexivity.
Qed.

Lemma py_eq_JStr_ne u s : u <> JStr s -> py_eq u (JStr s) = false.
Proof.
  intros Hne. destruct (py_eq u (JStr s)) eqn:E; [|reflexivity].
  apply py_eq_JStr in E. contradiction.
Qed.

Lemma py_eq_JStr_diff s t : s <> t -> py_eq (JStr s) (JStr t) = false.
Proof. intros Hne. apply py_eq_JStr_ne. congruence. Qed.

(** C6: a descriptor with its value id, name and parameter id is mapped to
    one variant, by priority. With a unit member: the Celsius unit gives
    [Temperature], bar [Pressure], percent [PercentageParameter], hour
    [HoursParameter], any other unit [SimpleParameter], list items or not.
    Without a unit member: a list of items gives [ListItemParameter] with the
    items' (raw value, display text) pairs in order; no list gives
    [SimpleParameter]. The four unit constants are taken to be different
    strings. *)
Theorem map_parameter_priority d parent vid nm pid :
  dict_get VALUE_ID d = Some vid -> dict_get NAME d = Some nm ->
  dict_get PARAMETER_ID d = Some pid ->
  NoDup [CELSIUS_TEMPERATURE; BAR; PERCENTAGE; HOUR] ->
  (forall u, dict_get UNIT d = Some u ->
     (u = JStr CELSIUS_TEMPERATURE ->
      _map_parameter (JDict d) parent = Ok (Temperature vid nm parent pid)) /\
     (u = JStr BAR ->
      _map_parameter (JDict d) parent = Ok (Pressure vid nm parent pid)) /\
     (u = JStr PERCENTAGE ->
      _map_parameter (JDict d) parent = Ok (PercentageParameter vid nm parent pid)) /\
     (u = JStr HOUR ->
      _map_parameter (JDict d) parent = Ok (HoursParameter vid nm parent pid)) /\
     (u ∉ [JStr CELSIUS_TEMPERATURE; JStr BAR; JStr PERCENTAGE; JStr HOUR] ->
      _map_parameter (JDict d) parent = Ok (SimpleParameter vid nm parent pid))) /\
  (dict_get UNIT d = None ->
     (forall elems pairs,
        dict_get LIST_ITEMS d = Some (JList elems) ->
        Forall2 (fun e vt => getitem e VALUE = Ok (fst vt) /\
                             getitem e DISPLAY_TEXT = Ok (snd vt)) elems pairs ->
        _map_parameter (JDict d) parent =
        Ok (ListItemParameter vid nm parent
              (map (fun vt => MkListItem (fst vt) (snd vt)) pairs) pid)) /\
     (dict_get LIST_ITEMS d = None ->
      _map_parameter (JDict d) parent = Ok (SimpleParameter vid nm parent pid))).
Proof.
  intros Hv Hn Hp Hnd.
  assert (D : CELSIUS_TEMPERATURE <> BAR /\ CELSIUS_TEMPERATURE <> PERCENTAGE /\
              CELSIUS_TEMPERATURE <> HOUR /\ BAR <> PERCENTAGE /\
              BAR <> HOUR /\ PERCENTAGE <> HOUR).
  { repeat (apply NoDup_cons in Hnd as [? Hnd]). set_solver. }
  destruct D as (Dcb & Dcp & Dch & Dbp & Dbh & Dph).
  split.
  - intros u Hu. rewrite (map_parameter_unit d parent vid nm pid u) by assumption.
    split; [|split; [|split; [|split]]]; intros E.
    + subst u. simpl. rewrite String.eqb_refl. reflexivity.
    + subst u. rewrite (py_eq_JStr_diff BAR CELSIUS_TEMPERATURE) by congruence.
      simpl. rewrite String.eqb_refl. reflexivity.
    + subst u. rewrite (py_eq_JStr_diff PERCENTAGE CELSIUS_TEMPERATURE) by congruence.
      rewrite (py_eq_JStr_diff PERCENTAGE BAR) by congruence.
      simpl. rewrite String.eqb_refl. reflexivity.
    + subst u. rewrite (py_eq_JStr_diff HOUR CELSIUS_TEMPERATURE) by congruence.
      rewrite (py_eq_JStr_diff HOUR BAR) by congruence.
      rewrite (py_eq_JStr_diff HOUR PERCENTAGE) by congruence.
      simpl. rewrite String.eqb_refl. reflexivity.
    + rewrite !py_eq_JStr_ne by set_solver. reflexivity.
  - intros Hu. split.
    + intros elems pairs Hl Hitems. unfold _map_parameter. simpl.
      rewrite Hv, Hn, Hp. simpl. rewrite !dict_mem_get, Hu, Hl. simpl.
      rewrite (map_list_items _ _ Hitems). reflexivity.
    + intros Hl. unfold _map_parameter. simpl.
      rewrite Hv, Hn, Hp. simpl. rewrite !dict_mem_get, Hu, Hl. reflexivity.
Qed.
End MapperFacts.

Lemma map_parameter_priority_witness :
  let d := [("valueId", JInt 3); ("name", JStr "System pressure");
            ("parameterId", JInt 1003); ("unit", JStr "bar");
            ("listItems", JList [JDict [("value", JInt 0); ("displayText", JStr "Off")]])] in
  (dict_get (@VALUE_ID sample_constants) d = Some (JInt 3) /\
   dict_get (@NAME sample_constants) d = Some (JStr "System pressure") /\
   dict_get (@PARAMETER_ID sample_constants) d = Some (JInt 1003) /\
   NoDup [@CELSIUS_TEMPERATURE sample_constants; @BAR sample_constants;
          @PERCENTAGE sample_constants; @HOUR sample_constants]) /\
  @_map_parameter sample_constants (JDict d) (JStr "Heating") =
  Ok (Pressure (JInt 3) (JStr "System pressure") (JStr "Heating") (JInt 1003)).
Proof.
  intros d.
  assert (H1 : dict_get (@VALUE_ID sample_constants) d = Some (JInt 3)) by reflexivity.
  assert (H2 : dict_get (@NAME sample_constants) d = Some (JStr "System pressure"))
    by reflexivity.
  assert (H3 : dict_get (@PARAMETER_ID sample_constants) d = Some (JInt 1003))
    by reflexivity.
  assert (H4 : NoDup [@CELSIUS_TEMPERATURE sample_constants; @BAR sample_constants;
                      @PERCENTAGE sample_constants; @HOUR sample_constants]).
  { apply (bool_decide_unpack _). vm_compute. reflexivity. }
  split; [auto|].
  destruct (@map_parameter_priority sample_constants d (JStr "Heating")
              (JInt 3) (JStr "System pressure") (JInt 1003) H1 H2 H3 H4)
    as [Hunit _].
  destruct (Hunit (JStr "bar") eq_refl) as (_ & Hbar & _).
  exact (Hbar eq_refl).
Defined.

(** ** The view mapper *)

Section ViewFacts.
Context `{Constants}.

(** The lookup the code builds answers as the specification's lookup. *)
Lemma units_schema entries pairs units vid :
  unit_pairs entries = Ok pairs -> pydict_of pairs [] = Ok units ->
  py_hashable vid = true ->
  pydict_find vid units = schema_unit entries vid.
Proof.
  intros Hp Hu Hh.
  rewrite (pydict_of_find pairs [] units vid Hu) by (try constructor; assumption).
  rewrite (unit_pairs_schema entries pairs vid Hp).
  destruct (schema_unit entries vid); reflexivity.
Qed.

Lemma rmap_ext {A B : Type} (f g : A -> result B) l :
  (forall a, f a = g a) -> rmap f l = rmap g l.
Proof.
  intros Hfg. induction l as [|a l IH]; simpl; [reflexivity|].
  rewrite Hfg, IH. reflexivity.
Qed.

Lemma map_with_units_enrich entries pairs units view param :
  unit_pairs entries = Ok pairs -> pydict_of pairs [] = Ok units ->
  map_with_units units view param =
  (param' <- enrich entries param ;;
   tab <- getitem view TAB_NAME ;;
   _map_parameter param' tab)%result.
Proof.
  intros Hp Hu. unfold map_with_units, enrich, rbind, pydict_contains, pydict_getitem.
  destruct (getitem param VALUE_ID) as [vid|]; [|reflexivity].
  destruct (py_hashable vid) eqn:Hh; [|reflexivity].
  rewrite (units_schema entries pairs units vid Hp Hu Hh).
  destruct (schema_unit entries vid); reflexivity.
Qed.

Lemma dict_get_set_same (k : string) (v : json) d :
  dict_get k (dict_set k v d) = Some v.
Proof.
  induction d as [|[k' v'] d IH]; simpl.
  - rewrite String.eqb_refl. reflexivity.
  - destruct (String.eqb k' k) eqn:E; simpl; rewrite E; auto.
Qed.

Lemma dict_get_set_other (k k' : string) (v : json) d :
  k <> k' -> dict_get k' (dict_set k v d) = dict_get k' d.
Proof.
  intros Hne. induction d as [|[k0 v0] d IH]; simpl.
  - apply String.eqb_neq in Hne. rewrite Hne. reflexivity.
  - destruct (String.eqb k0 k) eqn:E; simpl.
    + apply String.eqb_eq in E. subst k0.
      apply String.eqb_neq in Hne. rewrite Hne. reflexivity.
    + destruct (String.eqb k0 k'); auto.
Qed.

(** C7: in a view with the schema-diagram block whose unit lookup gets
    built, the lookup answers as the specification's ([schema_unit]: the
    entries that carry a unit, and only those), and the view is mapped by
    mapping every descriptor with the unit the lookup has for its value id
    written into it ([enrich]). A descriptor without a unit member whose
    value id the lookup maps to bar comes out as a [Pressure] parameter. *)
Theorem map_view_schema_units d devices device ps entries pairs units ds params :
  dict_get "SVGHeatingSchemaConfigDevices" d = Some devices ->
  getitem0 devices = Ok device ->
  getitem device "parameters" = Ok ps ->
  iter ps = Ok entries ->
  unit_pairs entries = Ok pairs ->
  pydict_of pairs [] = Ok units ->
  dict_get PARAMETER_DESCRIPTORS d = Some ds ->
  iter ds = Ok params ->
  (forall vid, py_hashable vid = true ->
               pydict_find vid units = schema_unit entries vid) /\
  _map_view (JDict d) =
    rmap (fun param =>
            (param' <- enrich entries param ;;
             tab <- getitem (JDict d) TAB_NAME ;;
             _map_parameter param' tab)%result) params /\
  (forall pd vid nm pid tab,
     dict_get VALUE_ID pd = Some vid -> dict_get NAME pd = Some nm ->
     dict_get PARAMETER_ID pd = Some pid -> dict_get UNIT pd = None ->
     py_hashable vid = true ->
     schema_unit entries vid = Some (JStr BAR) ->
     dict_get TAB_NAME d = Some tab ->
     CELSIUS_TEMPERATURE <> BAR ->
     (param' <- enrich entries (JDict pd) ;;
      tab <- getitem (JDict d) TAB_NAME ;;
      _map_parameter param' tab)%result = Ok (Pressure vid nm tab pid)).
Proof.
  intros Hdev Hdev0 Hps Hent Hpairs Hunits Hds Hpar.
  split; [|split].
  - intros vid Hh. exact (units_schema entries pairs units vid Hpairs Hunits Hh).
  - unfold _map_view. simpl.
    rewrite dict_mem_get, Hdev. simpl.
    rewrite Hdev0. simpl. rewrite Hps. simpl. rewrite Hent. simpl.
    rewrite Hpairs. simpl. rewrite Hunits. simpl.
    rewrite Hds. simpl. rewrite Hpar. simpl.
    apply rmap_ext. intros param.
    apply (map_with_units_enrich entries pairs units (JDict d) param Hpairs Hunits).
  - intros pd vid nm pid tab Hv Hn Hp Hu Hh Hbar Htab Hne.
    assert (Hk : forall k x, dict_get k pd = Some x -> UNIT <> k).
    { intros k x Hk E. subst k. congruence. }
    unfold enrich. simpl. rewrite Hv. simpl. rewrite Hh, Hbar. simpl.
    rewrite Htab. simpl.
    rewrite (map_parameter_unit _ tab vid nm pid (JStr BAR)).
    + rewrite (py_eq_JStr_diff BAR CELSIUS_TEMPERATURE) by congruence.
      simpl. rewrite String.eqb_refl. reflexivity.
    + rewrite dict_get_set_other by (eapply Hk; eassumption). assumption.
    + rewrite dict_get_set_other by (eapply Hk; eassumption). assumption.
    + rewrite dict_get_set_other by (eapply Hk; eassumption). assumption.
    + apply dict_get_set_same.
Qed.
End ViewFacts.

Lemma map_view_schema_units_witness :
  @_map_view sample_constants schema_view =
    Ok [Pressure (JInt 3) (JStr "System pressure") (JStr "Heating") (JInt 1003);
        SimpleParameter (JInt 4) (JStr "Mode") (JStr "Heating") (JInt 1004)] /\
  (param' <- @enrich sample_constants
                [JDict [("valueId", JInt 3); ("unit", JStr "bar")];
                 JDict [("valueId", JInt 4)]]
                (sample_descriptor 3 "System pressure") ;;
   tab <- getitem schema_view (@TAB_NAME sample_constants) ;;
   @_map_parameter sample_constants param' tab)%result =
  Ok (Pressure (JInt 3) (JStr "System pressure") (JStr "Heating") (JInt 1003)).
Proof.
  split; [vm_compute; reflexivity|].
  destruct (@map_view_schema_units sample_constants
           [("tabName", JStr "Heating");
            ("parameterDescriptors",
             JList [sample_descriptor 3 "System pressure"; sample_descriptor 4 "Mode"]);
            ("SVGHeatingSchemaConfigDevices",
             JList [JDict [("parameters",
                            JList [JDict [("valueId", JInt 3); ("unit", JStr "bar")];
                                   JDict [("valueId", JInt 4)]])]])]
           (JList [JDict [("parameters",
                           JList [JDict [("valueId", JInt 3); ("unit", JStr "bar")];
                                  JDict [("valueId", JInt 4)]])]])
           (JDict [("parameters",
                    JList [JDict [("valueId", JInt 3); ("unit", JStr "bar")];
                           JDict [("valueId", JInt 4)]])])
           (JList [JDict [("valueId", JInt 3); ("unit", JStr "bar")];
                   JDict [("valueId", JInt 4)]])
           [JDict [("valueId", JInt 3); ("unit", JStr "bar")]; JDict [("valueId", JInt 4)]]
           [(JInt 3, JStr "bar")] [(JInt 3, JStr "bar")]
           (JList [sample_descriptor 3 "System pressure"; sample_descriptor 4 "Mode"])
           [sample_descriptor 3 "System pressure"; sample_descriptor 4 "Mode"]
           eq_refl eq_refl eq_refl eq_refl eq_refl eq_refl eq_refl eq_refl)
    as (_ & _ & Hbar).
  assert (Hne : @CELSIUS_TEMPERATURE sample_constants <> @BAR sample_constants)
    by discriminate.
  exact (Hbar [("valueId", JInt 3); ("name", JStr "System pressure");
               ("parameterId", JInt 1003)]
              (JInt 3) (JStr "System pressure") (JInt 1003) (JStr "Heating")
              eq_refl eq_refl eq_refl eq_refl eq_refl eq_refl eq_refl Hne).
Defined.

(** ** [fetch_value] *)

Section FetchValue.
Context `{Constants} `{Helpers} {W : Type} `{World W}.

Lemma values_of_ok entries :
  Forall (fun e => entry_ok e = true) entries ->
  exists vals, values_of entries = Ok vals /\
               Forall2 value_of (List.filter has_value entries) vals.
Proof.
  induction 1 as [|e entries He _ (vals & Hv & IH)]; simpl.
  - exists []. split; [reflexivity|constructor].
  - destruct e as [| | | | |m]; try discriminate He. simpl in *.
    destruct (dict_mem VALUE m) eqn:Hm; simpl.
    + apply andb_true_iff in He as [Hi Hs].
      unfold dict_mem in Hm, Hi, Hs.
      destruct (dict_get VALUE_ID m) as [i|] eqn:Ei; [|discriminate Hi].
      destruct (dict_get VALUE m) as [x|] eqn:Ex; [|discriminate Hm].
      destruct (dict_get STATE m) as [st|] eqn:Es; [|discriminate Hs].
      simpl. rewrite Hv. simpl.
      exists (MkValue i x st :: vals). split; [reflexivity|].
      constructor; [|assumption]. exists m, i, x, st. auto.
    + exists vals. auto.
Qed.

(** C10: when the values request returns an object without error code and
    error type, with a last-access member and a list of well-formed entries,
    [fetch_value] returns one record per entry that has a raw value, in the
    order of the list, passes over the others, and stores the response's
    last access. *)
Theorem fetch_value_values g s ps c w d la entries :
  let o := __request "post" "api/portal/GetParameterValues"
                     (values_kwargs c g s ps) c w in
  res o = Ok (JDict d) ->
  dict_get ERROR_CODE d = None -> dict_get ERROR_TYPE d = None ->
  dict_get LAST_ACCESS d = Some la ->
  dict_get VALUES d = Some (JList entries) ->
  Forall (fun e => entry_ok e = true) entries ->
  let o' := fetch_value g s ps c w in
  exists vals,
    res o' = Ok vals /\
    Forall2 value_of (List.filter has_value entries) vals /\
    self o' = MkWolfClient (tokens (self o)) (session_id (self o)) la
                           (last_failed (self o)) (last_session_refesh (self o)).
Proof.
  intros o Hres Hcode Htype Hla Hvals Hok o'.
  destruct (values_of_ok entries Hok) as (vals & Hv & Hrel).
  assert (Ho : o' = MkOutcome (Ok vals)
                      (MkWolfClient (tokens (self o)) (session_id (self o)) la
                                    (last_failed (self o)) (last_session_refesh (self o)))
                      (world o) (evs o)).
  { subst o o'. unfold fetch_value. unfold bind at 1.
    destruct (__request _ _ _ c w) as [r c' w' ev]. simpl in Hres. subst r.
    unfold bind, lift, set_last_access, modify, check_error. simpl.
    rewrite !dict_mem_get, Hcode, Htype. simpl.
    rewrite Hla. simpl. rewrite Hvals. simpl. rewrite Hv. simpl.
    rewrite app_nil_r. reflexivity. }
  exists vals. rewrite Ho. simpl. auto.
Qed.

(** C5, as amended: when the values request returns an object that has an
    error code or an error type, [fetch_value] raises [ParameterReadError]
    if the object's error message is the read-parameter sentinel, and
    [FetchFailed] if the message is anything else or absent. *)
Theorem fetch_value_error g s ps c w d :
  let o := __request "post" "api/portal/GetParameterValues"
                     (values_kwargs c g s ps) c w in
  res o = Ok (JDict d) ->
  dict_mem ERROR_CODE d || dict_mem ERROR_TYPE d = true ->
  let o' := fetch_value g s ps c w in
  (dict_get ERROR_MESSAGE d = Some (JStr ERROR_READ_PARAMETER) ->
   res o' = Raise (ParameterReadError (JDict d))) /\
  (dict_get ERROR_MESSAGE d <> Some (JStr ERROR_READ_PARAMETER) ->
   res o' = Raise (FetchFailed (JDict d))).
Proof.
  intros o Hres Herr o'.
  assert (Hc : check_error (JDict d) =
               Raise (if match dict_get ERROR_MESSAGE d with
                         | Some msg => py_eq msg (JStr ERROR_READ_PARAMETER)
                         | None => false
                         end
                      then ParameterReadError (JDict d) else FetchFailed (JDict d))).
  { unfold check_error. simpl.
    destruct (dict_mem ERROR_CODE d); simpl in *.
    - rewrite dict_mem_get.
      destruct (dict_get ERROR_MESSAGE d) as [msg|]; simpl; [|reflexivity].
      destruct (py_eq msg _); reflexivity.
    - rewrite Herr. rewrite dict_mem_get.
      destruct (dict_get ERROR_MESSAGE d) as [msg|]; simpl; [|reflexivity].
      destruct (py_eq msg _); reflexivity. }
  assert (Ho' : res o' =
                Raise (if match dict_get ERROR_MESSAGE d with
                          | Some msg => py_eq msg (JStr ERROR_READ_PARAMETER)
                          | None => false
                          end
                       then ParameterReadError (JDict d) else FetchFailed (JDict d))).
  { subst o o'. unfold fetch_value. unfold bind at 1.
    destruct (__request _ _ _ c w) as [r c' w' ev]. simpl in Hres. subst r.
    unfold bind at 1. unfold lift at 1. rewrite Hc. reflexivity. }
  split; intros Hmsg; rewrite Ho'.
  - rewrite Hmsg. simpl. rewrite String.eqb_refl. reflexivity.
  - destruct (dict_get ERROR_MESSAGE d) as [msg|]; [|reflexivity].
    rewrite py_eq_JStr_ne; [reflexivity|congruence].
Qed.
End FetchValue.

Lemma fetch_value_values_witness :
  exists vals,
    res (@fetch_value sample_constants sample_helpers _ scripted (JInt 1) (JInt 2) []
           init (first_request_world three_entries_payload)) = Ok vals /\
    Forall2 (@value_of sample_constants)
            [JDict [("valueId", JInt 1); ("value", JStr "21.5"); ("state", JInt 1)];
             JDict [("valueId", JInt 3); ("value", JStr "Off"); ("state", JInt 1)]]
            vals /\
    last_access
      (self (@fetch_value sample_constants sample_helpers _ scripted (JInt 1) (JInt 2) []
               init (first_request_world three_entries_payload))) =
    JStr "2024-01-01T00:00:00".
Proof.
  destruct (@fetch_value_values sample_constants sample_helpers _ scripted
              (JInt 1) (JInt 2) [] init (first_request_world three_entries_payload)
              [("lastAccess", JStr "2024-01-01T00:00:00");
               ("values",
                JList [JDict [("valueId", JInt 1); ("value", JStr "21.5"); ("state", JInt 1)];
                       JDict [("valueId", JInt 2); ("state", JInt 4)];
                       JDict [("valueId", JInt 3); ("value", JStr "Off"); ("state", JInt 1)]])]
              (JStr "2024-01-01T00:00:00")
              [JDict [("valueId", JInt 1); ("value", JStr "21.5"); ("state", JInt 1)];
               JDict [("valueId", JInt 2); ("state", JInt 4)];
               JDict [("valueId", JInt 3); ("value", JStr "Off"); ("state", JInt 1)]])
    as (vals & Hres & Hrel & Hself).
  - vm_compute. reflexivity.
  - reflexivity.
  - reflexivity.
  - reflexivity.
  - reflexivity.
  - repeat constructor.
  - exists vals. split; [exact Hres|]. split; [exact Hrel|].
    rewrite Hself. reflexivity.
Defined.

Lemma fetch_value_error_witness :
  res (@fetch_value sample_constants sample_helpers _ scripted (JInt 1) (JInt 2) []
         init (first_request_world read_error_payload)) =
  Raise (ParameterReadError read_error_payload).
Proof.
  refine (proj1 (@fetch_value_error sample_constants sample_helpers _ scripted
                   (JInt 1) (JInt 2) [] init (first_request_world read_error_payload)
                   [("errorCode", JInt 2001);
                    ("errorMessage", JStr "read parameter failed")] _ _) _).
  - vm_compute. reflexivity.
  - reflexivity.
  - reflexivity.
Defined.

(** C5 as stated fails: a response whose error message is the sentinel but
    which has neither an error code nor an error type raises nothing;
    [fetch_value] returns its (empty) list of values. *)
Lemma message_without_code_not_raised :
  getitem message_only_payload (@ERROR_MESSAGE sample_constants) =
    Ok (JStr (@ERROR_READ_PARAMETER sample_constants)) /\
  res (@fetch_value sample_constants sample_helpers _ scripted (JInt 1) (JInt 2) []
         init (first_request_world message_only_payload)) = Ok [].
Proof. split; vm_compute; reflexivity. Qed.

(** ** The request pipeline *)

(** Symbolic execution of client code against an arbitrary world: unfold
    the monad, then split on the answer of the next collaborator. *)
Ltac unfold_client :=
  unfold ensure_authenticated, refresh_session, __authorize_and_session,
    __execute, self_access_token, try_except_FetchFailed, bind, ret, raise, lift, get,
    set_tokens, set_session_id, set_last_failed, set_last_session_refesh, modify,
    call_token, call_create_session, call_update_session, call_is_expired, call_now,
    call_request in *.

Ltac run_step :=
  match goal with
  | |- context [w_is_expired ?t ?w] =>
      destruct (w_is_expired t w) as [[] ?] eqn:?
  | |- context [w_token ?w] =>
      destruct (w_token w) as [[?|?] ?] eqn:?
  | |- context [w_create_session ?a ?w] =>
      destruct (w_create_session a w) as [[?|?] ?] eqn:?
  | |- context [w_update_session ?a ?b ?w] =>
      destruct (w_update_session a b w) as [[[]|?] ?] eqn:?
  | |- context [w_now ?w] =>
      destruct (w_now w) as [? ?] eqn:?
  | |- context [w_request ?m ?u ?k ?w] =>
      destruct (w_request m u k w) as [[[? [?|?]]|?] ?] eqn:?
  | |- context [handle_response ?h ?k ?m ?p ?r ?c ?w] =>
      destruct (handle_response h k m p r c w) as [? ? ? ?] eqn:?
  | |- context [Z.leb ?a ?b] => destruct (Z.leb a b) eqn:?
  | |- context [Z.eqb ?a ?b] => destruct (Z.eqb a b) eqn:?
  | |- context [match ?e with KeyError => _ | _ => _ end] => destruct e
  end; simpl in *.


Section Pipeline.
Context `{Constants} `{Helpers} {W : Type} `{World W}.








(** The headers of the second attempt agree with those of the first on
    every key the first attempt had. *)
Lemma retry_headers_shadowed (headers : Headers) tok k v :
  headers !! k = Some v -> (headers ∪ bearer_header tok) !! k = Some v.
Proof. intros Hk. apply lookup_union_Some_l. exact Hk. Qed.

Lemma handle_response_headers headers kw m p r c w k v :
  headers !! k = Some v ->
  Forall (fun kw' => exists h, kw_headers kw' = Some h /\ h !! k = Some v)
         (request_kwargs (evs (handle_response headers kw m p r c w))).
Proof.
  intros Hk. destruct c as [tk sid la lf stamp]. destruct r as [sc bd].
  unfold handle_response. unfold_client. simpl.
  repeat run_step; repeat constructor;
    eexists; (split; [reflexivity|]); apply retry_headers_shadowed; exact Hk.
Qed.

(** In every run of a request, an HTTP call after the first one has, on
    every key of the first call's headers, the first call's value. *)
Lemma retry_keeps_first_headers method path kw c w kw1 rest h1 k v :
  request_kwargs (evs (__request method path kw c w)) = kw1 :: rest ->
  kw_headers kw1 = Some h1 -> h1 !! k = Some v ->
  Forall (fun kw' => exists h, kw_headers kw' = Some h /\ h !! k = Some v) rest.
Proof.
  destruct c as [tk sid la lf stamp].
  unfold __request. unfold_client. simpl.
  destruct tk, stamp; repeat run_step; intros Hk1 Hh1 Hkv; try discriminate Hk1.
  all: inversion Hk1; subst kw1 rest; simpl in Hh1; inversion Hh1; subst h1.
  all: try (constructor; fail).
  all: match goal with
       | E : handle_response ?h ?kw' ?m ?p ?r ?c' ?w' = _ |- _ =>
           pose proof (handle_response_headers h kw' m p r c' w' k v Hkv) as Hall;
           rewrite E in Hall; exact Hall
       end.
Qed.

(** What the second attempt leaves behind: its body and the flag as it
    was when it is answered, the flag set and [FetchFailed] raised again when
    it raises [FetchFailed]. *)
Lemma retry_outcome h kw m p sc bd c w t w1 sid w2 r w3 :
  Z.eqb sc 401 || Z.eqb sc 500 = true ->
  w_token w = (Ok t, w1) ->
  w_create_session (access_token t) w1 = (Ok sid, w2) ->
  w_request m (String.append BASE_URL_PORTAL (String.append "/" p))
            (MkKwargs (Some (h ∪ bearer_header (access_token t)))
                      (kw_params kw) (kw_json kw)) w2 = (r, w3) ->
  let o := handle_response h kw m p (MkResponse sc bd) c w in
  (forall sc2 b, r = Ok (MkResponse sc2 (Ok b)) ->
                 res o = Ok b /\ last_failed (self o) = last_failed c) /\
  (forall q, r = Raise (FetchFailed q) ->
             res o = Raise (FetchFailed q) /\ last_failed (self o) = true).
Proof.
  intros Hsc Ht Hcs Hr o. subst o. destruct c as [tk sid0 la lf stamp].
  unfold handle_response. unfold_client. simpl.
  rewrite Hsc, Ht. simpl. rewrite Hcs. simpl. rewrite Hr.
  split; intros; subst r; simpl; auto.
Qed.
End Pipeline.



(** C2 at a failing input: a fresh client's request is answered 401, the
    authenticator then issues [T1], and the second attempt still carries the
    bearer header of [T0], the token the client no longer holds. *)
Theorem retry_sends_old_token :
  let o := @__request sample_constants sample_helpers _ scripted
             "get" "api/portal/GetSystemList" (MkKwargs None None None)
             init retry_world in
  res o = Ok (JStr "done") /\
  tokens (self o) = Some (MkTokens "T1" 3600000000) /\
  map kw_headers (request_kwargs (evs o)) =
    [Some (@bearer_header sample_helpers "T0");
     Some (@bearer_header sample_helpers "T0")] /\
  @bearer_header sample_helpers "T0" <> @bearer_header sample_helpers "T1".
Proof.
  intros o. split; [vm_compute; reflexivity|].
  split; [vm_compute; reflexivity|].
  split; [vm_compute; reflexivity|].
  intros E.
  assert (E' : @bearer_header sample_helpers "T0" !! "Authorization" =
               @bearer_header sample_helpers "T1" !! "Authorization")
    by (rewrite E; reflexivity).
  vm_compute in E'. discriminate E'.
Qed.

(** C3 at a failing input: after a request whose second attempt raised
    [FetchFailed], a request whose second attempt succeeds returns the body
    of that attempt and leaves [last_failed] true. *)
Theorem retry_success_leaves_flag_set :
  let o1 := @__request sample_constants sample_helpers _ scripted
              "get" "api/portal/GetSystemList" (MkKwargs None None None)
              init failed_then_recovered_world in
  let o2 := @__request sample_constants sample_helpers _ scripted
              "get" "api/portal/GetSystemList" (MkKwargs None None None)
              (self o1) (world o1) in
  res o1 = Raise (FetchFailed JNull) /\ last_failed (self o1) = true /\
  res o2 = Ok (JStr "done") /\ last_failed (self o2) = true.
Proof. repeat split; vm_compute; reflexivity. Qed.

(** * The request pipeline: further properties *)

(** Brings the fact [L] about the tail of a request into a symbolic run. *)
Ltac use_tail L :=
  match goal with
  | E : handle_response ?h ?k ?m ?p ?r ?c ?w = _ |- _ =>
      let HL := fresh "Htail" in
      pose proof (L h k m p r c w) as HL; rewrite E in HL; simpl in HL
  end.

Section RequestFacts.
Context `{Constants} `{Helpers} {W : Type} `{World W}.

Lemma handle_response_plain h kw m p resp c w :
  is_retry_status (status_code resp) = false ->
  handle_response h kw m p resp c w =
  MkOutcome (body resp)
            (MkWolfClient (tokens c) (session_id c) (last_access c) false
                          (last_session_refesh c)) w [].
Proof.
  intros Hs. unfold handle_response. unfold is_retry_status in Hs. rewrite Hs.
  unfold_client. destruct c. reflexivity.
Qed.

Lemma handle_response_calls h kw m p resp c w :
  let rs := responses (evs (handle_response h kw m p resp c w)) in
  (length rs <= 1)%nat /\
  (is_retry_status (status_code resp) = false -> rs = []).
Proof.
  intros rs. subst rs. split.
  - destruct c as [tk sid la lf stamp]. destruct resp as [sc bd].
    unfold handle_response. unfold_client. simpl.
    repeat run_step; simpl; lia.
  - intros Hs. rewrite handle_response_plain by assumption. reflexivity.
Qed.

(** X1: one run of [__request] makes at most two HTTP calls. It makes two
    only when the first was answered with status 401 or 500; after any
    other status, and after a call that raised, it makes no second call. *)
Theorem request_at_most_one_retry method path kw c w :
  let rs := responses (evs (__request method path kw c w)) in
  (length rs <= 2)%nat /\
  (length rs = 2%nat ->
   exists resp, head rs = Some (Ok resp) /\ is_retry_status (status_code resp) = true) /\
  (forall resp, head rs = Some (Ok resp) ->
                is_retry_status (status_code resp) = false -> rs = [Ok resp]) /\
  (forall e, head rs = Some (Raise e) -> rs = [Raise e]).
Proof.
  intros rs. subst rs. destruct c as [tk sid la lf stamp].
  unfold __request. unfold_client. simpl.
  destruct tk, stamp; repeat run_step.
  all: try use_tail handle_response_calls.
  all: try match goal with Htail : _ /\ _ |- _ => destruct Htail as [Hlen Hnone] end.
  all: repeat split; simpl; try lia; try discriminate.
  all: try (intros L; eexists; split; [reflexivity|]; simpl;
            destruct (is_retry_status _) eqn:Hs; [reflexivity|];
            first [rewrite (Hnone Hs) in L | rewrite (Hnone eq_refl) in L]; simpl in L; lia).
  all: try (intros resp E Hs; inversion E; subst; simpl in Hs;
            rewrite (Hnone Hs); reflexivity).
  all: try (intros e' E; inversion E; reflexivity).
Qed.

(** X2: when the first HTTP call of a request is answered with a status
    other than 401 and 500, the request returns what decoding that response
    gives (the body, or the decoder's exception) and leaves [last_failed]
    false, whatever the flag was before. *)
Theorem request_passes_other_status method path kw c w resp :
  let o := __request method path kw c w in
  head (responses (evs o)) = Some (Ok resp) ->
  is_retry_status (status_code resp) = false ->
  res o = body resp /\ last_failed (self o) = false.
Proof.
  intros o. subst o. destruct c as [tk sid la lf stamp].
  unfold __request. unfold_client. simpl.
  destruct tk, stamp; repeat run_step; intros E Hs; try discriminate E.
  all: inversion E; subst resp; simpl in Hs.
  all: rewrite handle_response_plain in Heqo by exact Hs.
  all: inversion Heqo; subst; split; reflexivity.
Qed.

Lemma handle_response_same_call h kw m p resp c w :
  Forall (same_call m (String.append BASE_URL_PORTAL (String.append "/" p)) kw)
         (evs (handle_response h kw m p resp c w)).
Proof.
  destruct c as [tk sid la lf stamp]. destruct resp as [sc bd].
  unfold handle_response. unfold_client. simpl.
  repeat run_step; repeat constructor.
Qed.

(** X3: every HTTP call of a request, the second attempt included, has the
    method the caller gave, the URL [BASE_URL_PORTAL/path], and the caller's
    query parameters and body. *)
Theorem request_replays_same_call method path kw c w :
  Forall (same_call method (String.append BASE_URL_PORTAL (String.append "/" path)) kw)
         (evs (__request method path kw c w)).
Proof.
  destruct c as [tk sid la lf stamp].
  unfold __request. unfold_client. simpl.
  destruct tk, stamp; repeat run_step.
  all: try use_tail handle_response_same_call.
  all: repeat (constructor; [simpl; auto|]); try constructor; try assumption.
Qed.

(** X4: a header the caller supplies is sent with the caller's value in
    every HTTP call of the request: the bearer header is merged under the
    caller's headers, so a caller's [Authorization] replaces it. *)
Theorem caller_headers_win method path kw c w supplied k v :
  kw_headers kw = Some supplied -> supplied !! k = Some v ->
  Forall (fun kw' => exists h, kw_headers kw' = Some h /\ h !! k = Some v)
         (request_kwargs (evs (__request method path kw c w))).
Proof.
  intros Hsup Hk. destruct kw as [hd pr js]. simpl in Hsup. subst hd.
  assert (Hfirst : forall tok, (supplied ∪ bearer_header tok) !! k = Some v).
  { intros tok. apply lookup_union_Some_l. exact Hk. }
  destruct c as [tk sid la lf stamp].
  unfold __request. unfold_client. simpl.
  destruct tk, stamp; repeat run_step.
  all: try match goal with
       | E : handle_response ?h ?kw' ?m ?p ?r ?c' ?w' = _ |- _ =>
           pose proof (handle_response_headers h kw' m p r c' w' k v (Hfirst _)) as Htail;
           rewrite E in Htail; simpl in Htail
       end.
  all: repeat (constructor; [eexists; split; [reflexivity|apply Hfirst]|]);
       try constructor; try assumption.
Qed.

Lemma handle_response_frame h kw m p resp c w :
  let o := handle_response h kw m p resp c w in
  last_access (self o) = last_access c /\
  (existsb is_token (evs o) = false ->
   tokens (self o) = tokens c /\ session_id (self o) = session_id c).
Proof.
  intros o. subst o. destruct c as [tk sid la lf stamp]. destruct resp as [sc bd].
  unfold handle_response. unfold_client. simpl.
  repeat run_step; split; try reflexivity; intros E; try discriminate E; auto.
Qed.

(** X5: a request never changes [last_access]; and in a run that did not
    ask the authenticator for tokens, it changes neither the tokens nor the
    session id. *)
Theorem request_frame method path kw c w :
  let o := __request method path kw c w in
  last_access (self o) = last_access c /\
  (existsb is_token (evs o) = false ->
   tokens (self o) = tokens c /\ session_id (self o) = session_id c).
Proof.
  intros o. subst o. destruct c as [tk sid la lf stamp].
  unfold __request. unfold_client. simpl.
  destruct tk, stamp; repeat run_step.
  all: try use_tail handle_response_frame.
  all: try match goal with Htail : _ /\ _ |- _ => destruct Htail as [Hla Hts] end.
  all: split; try assumption; try reflexivity; intros E; try discriminate E; auto.
Qed.

(** X6: when the client has no tokens or expired ones and the
    authenticator raises, the request raises the same exception, leaves the
    client as it was and makes no HTTP call; when the tokens are issued but
    opening the session raises, the request raises the same exception, has
    stored the new tokens, kept the old session id, and makes no HTTP
    call. *)
Theorem authentication_failure method path kw c w w0 e :
  (tokens c = None /\ w0 = w) \/
  (exists t0, tokens c = Some t0 /\ w_is_expired t0 w = (true, w0)) ->
  let o := __request method path kw c w in
  (forall w1, w_token w0 = (Raise e, w1) ->
     res o = Raise e /\ self o = c /\ existsb is_request (evs o) = false) /\
  (forall t w1 w2,
     w_token w0 = (Ok t, w1) ->
     w_create_session (access_token t) w1 = (Raise e, w2) ->
     res o = Raise e /\
     self o = MkWolfClient (Some t) (session_id c) (last_access c) (last_failed c)
                           (last_session_refesh c) /\
     existsb is_request (evs o) = false).
Proof.
  intros Hstale o. subst o. destruct c as [tk sid la lf stamp]. simpl in *.
  destruct Hstale as [[-> ->]|(t0 & -> & Hx)];
    unfold __request; unfold_client; simpl; rewrite ?Hx; simpl;
    (split; [intros w1 Ht; rewrite Ht; auto
            |intros t w1 w2 Ht Hc; rewrite Ht; simpl; rewrite Hc; auto]).
Qed.

(** X7: after a first response with status 401 or 500 and a successful
    re-authentication, the second attempt is the only further HTTP call; its
    decoded body is returned whatever its status, with [last_failed] left as
    it was; an exception of the call or of the decoding is raised again, and
    sets [last_failed] only when it is [FetchFailed]. *)
Theorem second_attempt_result h kw m p sc bd c w t w1 sid w2 r w3 :
  is_retry_status sc = true ->
  w_token w = (Ok t, w1) ->
  w_create_session (access_token t) w1 = (Ok sid, w2) ->
  w_request m (String.append BASE_URL_PORTAL (String.append "/" p))
            (MkKwargs (Some (h ∪ bearer_header (access_token t)))
                      (kw_params kw) (kw_json kw)) w2 = (r, w3) ->
  let o := handle_response h kw m p (MkResponse sc bd) c w in
  responses (evs o) = [r] /\
  (forall resp2 b, r = Ok resp2 -> body resp2 = Ok b ->
     res o = Ok b /\ last_failed (self o) = last_failed c) /\
  (forall e, r = Raise e \/ (exists resp2, r = Ok resp2 /\ body resp2 = Raise e) ->
     res o = Raise e /\
     last_failed (self o) = match e with FetchFailed _ => true | _ => last_failed c end).
Proof.
  intros Hsc Ht Hcs Hr o. subst o. destruct c as [tk sid0 la lf stamp].
  unfold handle_response. unfold is_retry_status in Hsc. unfold_client. simpl.
  rewrite Hsc, Ht. simpl. rewrite Hcs. simpl. rewrite Hr.
  split; [|split].
  - destruct r as [[sc2 [b|e]]|e]; simpl; try destruct e; reflexivity.
  - intros [sc2 bd2] b -> Hb. simpl in Hb. subst bd2. simpl. auto.
  - intros e [->|([sc2 bd2] & -> & Hb)]; [|simpl in Hb; subst bd2];
      destruct e; simpl; auto.
Qed.
End RequestFacts.

(** * The mappers and the flattening: further properties *)

Section MoreMapperFacts.
Context `{Constants}.

Lemma map_parameter_fields x tab p :
  _map_parameter x tab = Ok p ->
  getitem x VALUE_ID = Ok (value_id p) /\ getitem x NAME = Ok (name p) /\
  getitem x PARAMETER_ID = Ok (parameter_id p) /\ parent p = tab.
Proof.
  unfold _map_parameter, rbind. intros Hm.
  destruct (getitem x VALUE_ID) as [vid|]; [|discriminate Hm].
  destruct (getitem x NAME) as [nm|]; [|discriminate Hm].
  destruct (getitem x PARAMETER_ID) as [pid|]; [|discriminate Hm].
  destruct (contains UNIT x) as [[]|]; try discriminate Hm.
  - destruct (getitem x UNIT) as [u|]; [|discriminate Hm].
    repeat match type of Hm with
           | (if ?b then _ else _) = _ => destruct b
           end; inversion Hm; subst p; simpl; auto.
  - destruct (contains LIST_ITEMS x) as [[]|]; try discriminate Hm.
    + destruct (getitem x LIST_ITEMS) as [raw|]; [|discriminate Hm].
      destruct (iter raw) as [elems|]; [|discriminate Hm].
      destruct (rmap map_list_item elems) as [items|]; [|discriminate Hm].
      inversion Hm; subst p; simpl; auto.
    + inversion Hm; subst p; simpl; auto.
Qed.

(** X8: whatever variant [_map_parameter] returns, its value id, name and
    parameter id are the descriptor's members, and its parent is the tab
    name passed in. *)
Theorem map_parameter_keeps_identity d tab p :
  _map_parameter (JDict d) tab = Ok p ->
  dict_get VALUE_ID d = Some (value_id p) /\ dict_get NAME d = Some (name p) /\
  dict_get PARAMETER_ID d = Some (parameter_id p) /\ parent p = tab.
Proof.
  intros Hm. apply map_parameter_fields in Hm as (Hv & Hn & Hp & Ht).
  simpl in Hv, Hn, Hp.
  destruct (dict_get VALUE_ID d); [|discriminate Hv].
  destruct (dict_get NAME d); [|discriminate Hn].
  destruct (dict_get PARAMETER_ID d); [|discriminate Hp].
  repeat split; congruence.
Qed.

(** X9: [_map_parameter] raises [TypeError] on a descriptor that is no
    object, [KeyError] on an object that lacks the value id, the name or the
    parameter id; for a descriptor without unit, [TypeError] when its list
    items are null, a boolean or a number, and [KeyError] when one list item
    lacks its value or its display text. *)
Theorem map_parameter_errors x tab :
  ((forall d, x <> JDict d) -> _map_parameter x tab = Raise TypeError) /\
  (forall d, x = JDict d ->
     dict_get VALUE_ID d = None \/ dict_get NAME d = None \/
     dict_get PARAMETER_ID d = None ->
     _map_parameter x tab = Raise KeyError) /\
  (forall d vid nm pid raw,
     x = JDict d ->
     dict_get VALUE_ID d = Some vid -> dict_get NAME d = Some nm ->
     dict_get PARAMETER_ID d = Some pid -> dict_get UNIT d = None ->
     dict_get LIST_ITEMS d = Some raw ->
     (raw = JNull \/ (exists b, raw = JBool b) \/ (exists n, raw = JInt n)) ->
     _map_parameter x tab = Raise TypeError) /\
  (forall d vid nm pid before item after,
     x = JDict d ->
     dict_get VALUE_ID d = Some vid -> dict_get NAME d = Some nm ->
     dict_get PARAMETER_ID d = Some pid -> dict_get UNIT d = None ->
     dict_get LIST_ITEMS d = Some (JList (before ++ JDict item :: after)) ->
     Forall (fun e => exists li, map_list_item e = Ok li) before ->
     dict_get VALUE item = None \/ dict_get DISPLAY_TEXT item = None ->
     _map_parameter x tab = Raise KeyError).
Proof.
  split; [|split; [|split]].
  - intros Hnd. destruct x; try reflexivity. exfalso. eapply Hnd. reflexivity.
  - intros d -> Hmiss. unfold _map_parameter. simpl.
    destruct (dict_get VALUE_ID d); [|reflexivity]. simpl.
    destruct (dict_get NAME d); [|reflexivity]. simpl.
    destruct (dict_get PARAMETER_ID d); [|reflexivity].
    destruct Hmiss as [E|[E|E]]; discriminate E.
  - intros d vid nm pid raw -> Hv Hn Hp Hu Hl Hraw.
    unfold _map_parameter. simpl. rewrite Hv, Hn, Hp. simpl.
    rewrite !dict_mem_get, Hu, Hl. simpl.
    destruct Hraw as [->|[[b ->]|[n ->]]]; reflexivity.
  - intros d vid nm pid before item after -> Hv Hn Hp Hu Hl Hbefore Hitem.
    unfold _map_parameter. simpl. rewrite Hv, Hn, Hp. simpl.
    rewrite !dict_mem_get, Hu, Hl. simpl.
    assert (Hr : rmap map_list_item (before ++ JDict item :: after) = Raise KeyError).
    { clear Hl. induction Hbefore as [|e before [li He] _ IH]; simpl.
      - unfold map_list_item at 1. simpl.
        destruct (dict_get VALUE item); simpl.
        + destruct (dict_get DISPLAY_TEXT item); [|reflexivity].
          destruct Hitem as [E|E]; discriminate E.
        + reflexivity.
      - rewrite He. simpl. rewrite IH. reflexivity. }
    rewrite Hr. reflexivity.
Qed.

(** X10: when [_map_view] returns, it returns one parameter per descriptor
    of the view, in the descriptors' order, each with its descriptor's value
    id, name and parameter id and with the view's tab name as parent; this
    holds with and without the schema-diagram block. *)
Theorem map_view_keeps_descriptors view mapped :
  UNIT <> VALUE_ID -> UNIT <> NAME -> UNIT <> PARAMETER_ID ->
  _map_view view = Ok mapped ->
  exists descriptors params,
    getitem view PARAMETER_DESCRIPTORS = Ok descriptors /\
    iter descriptors = Ok params /\
    Forall2 (fun param p =>
               getitem param VALUE_ID = Ok (value_id p) /\
               getitem param NAME = Ok (name p) /\
               getitem param PARAMETER_ID = Ok (parameter_id p) /\
               getitem view TAB_NAME = Ok (parent p))
            params mapped.
Proof.
  intros Hv Hn Hp Hm. unfold _map_view, rbind in Hm.
  destruct (contains "SVGHeatingSchemaConfigDevices" view) as [[]|]; try discriminate Hm.
  - destruct (getitem view "SVGHeatingSchemaConfigDevices") as [devices|];
      [|discriminate Hm].
    destruct (getitem0 devices) as [device|]; [|discriminate Hm].
    destruct (getitem device "parameters") as [ps|]; [|discriminate Hm].
    destruct (iter ps) as [entries|]; [|discriminate Hm].
    destruct (unit_pairs entries) as [pairs|]; [|discriminate Hm].
    destruct (pydict_of pairs []) as [units|]; [|discriminate Hm].
    destruct (getitem view PARAMETER_DESCRIPTORS) as [ds|] eqn:Hds; [|discriminate Hm].
    destruct (iter ds) as [params|] eqn:Hparams; [|discriminate Hm].
    exists ds, params. split; [reflexivity|]. split; [exact Hparams|].
    apply rmap_Forall2 in Hm. eapply Forall2_impl; [exact Hm|].
    intros param p Hone. simpl in Hone.
    unfold map_with_units, rbind in Hone.
    destruct (getitem param VALUE_ID) as [vid|] eqn:Hvid; [|discriminate Hone].
    destruct (pydict_contains vid units) as [[]|]; try discriminate Hone.
    + destruct (pydict_getitem units vid) as [u|]; [|discriminate Hone].
      destruct param as [| | | | |pd]; try discriminate Hvid. simpl in Hone.
      destruct (getitem view TAB_NAME) as [tab|] eqn:Htab; [|discriminate Hone].
      apply map_parameter_fields in Hone as (H1 & H2 & H3 & H4).
      simpl in H1, H2, H3. simpl.
      rewrite dict_get_set_other in H1, H2, H3 by assumption.
      simpl in Hvid. rewrite Hvid in H1. subst tab. auto.
    + destruct (getitem view TAB_NAME) as [tab|] eqn:Htab; [|discriminate Hone].
      apply map_parameter_fields in Hone as (H1 & H2 & H3 & H4).
      rewrite Hvid in H1. subst tab. auto.
  - destruct (getitem view PARAMETER_DESCRIPTORS) as [ds|] eqn:Hds; [|discriminate Hm].
    destruct (iter ds) as [params|] eqn:Hparams; [|discriminate Hm].
    exists ds, params. split; [reflexivity|]. split; [exact Hparams|].
    apply rmap_Forall2 in Hm. eapply Forall2_impl; [exact Hm|].
    intros param p Hone. simpl in Hone. unfold rbind in Hone.
    destruct (getitem view TAB_NAME) as [tab|] eqn:Htab; [|discriminate Hone].
    apply map_parameter_fields in Hone as (H1 & H2 & H3 & H4).
    subst tab. auto.
Qed.

(** X11: when the schema-diagram block has a unit for a descriptor's value
    id, the descriptor is mapped by that unit alone: the unit the descriptor
    itself carries plays no part. *)
Theorem schema_unit_overrides entries pairs units view pd vid nm pid tab u :
  unit_pairs entries = Ok pairs -> pydict_of pairs [] = Ok units ->
  dict_get VALUE_ID pd = Some vid -> dict_get NAME pd = Some nm ->
  dict_get PARAMETER_ID pd = Some pid ->
  py_hashable vid = true -> schema_unit entries vid = Some u ->
  getitem view TAB_NAME = Ok tab ->
  UNIT <> VALUE_ID -> UNIT <> NAME -> UNIT <> PARAMETER_ID ->
  map_with_units units view (JDict pd) =
  Ok (if py_eq u (JStr CELSIUS_TEMPERATURE) then Temperature vid nm tab pid
      else if py_eq u (JStr BAR) then Pressure vid nm tab pid
      else if py_eq u (JStr PERCENTAGE) then PercentageParameter vid nm tab pid
      else if py_eq u (JStr HOUR) then HoursParameter vid nm tab pid
      else SimpleParameter vid nm tab pid).
Proof.
  intros Hpairs Hunits Hv Hn Hp Hh Hu Htab Dv Dn Dp.
  rewrite (map_with_units_enrich entries pairs units view (JDict pd) Hpairs Hunits).
  unfold enrich. simpl. rewrite Hv. simpl. rewrite Hh, Hu. simpl.
  rewrite Htab. simpl.
  apply map_parameter_unit.
  - rewrite dict_get_set_other by assumption. assumption.
  - rewrite dict_get_set_other by assumption. assumption.
  - rewrite dict_get_set_other by assumption. assumption.
  - apply dict_get_set_same.
Qed.

(** X12: [fetch_parameters] reads the first menu item only: a description
    without menu items raises [KeyError], an empty list of menu items raises
    [IndexError], two descriptions with the same first menu item give the
    same result, and a first menu item without tab views gives the empty
    list. *)
Theorem parameters_of_first_menu_item d :
  (dict_get MENU_ITEMS d = None -> parameters_of (JDict d) = Raise KeyError) /\
  (dict_get MENU_ITEMS d = Some (JList []) -> parameters_of (JDict d) = Raise IndexError) /\
  (forall d' m rest rest',
     dict_get MENU_ITEMS d = Some (JList (m :: rest)) ->
     dict_get MENU_ITEMS d' = Some (JList (m :: rest')) ->
     parameters_of (JDict d) = parameters_of (JDict d')) /\
  (forall m rest,
     dict_get MENU_ITEMS d = Some (JList (m :: rest)) ->
     getitem m TAB_VIEWS = Ok (JList []) ->
     parameters_of (JDict d) = Ok []).
Proof.
  unfold parameters_of. simpl. repeat split.
  - intros ->. reflexivity.
  - intros ->. reflexivity.
  - intros d' m rest rest' -> ->. reflexivity.
  - intros m rest -> Hm. simpl. rewrite Hm. reflexivity.
Qed.
End MoreMapperFacts.

Lemma py_distinct_prefix l1 l2 : py_distinct (l1 ++ l2) -> py_distinct l1.
Proof.
  intros Hd i j x y Hij Hi Hj.
  apply (Hd i j x y Hij); apply lookup_app_l_Some; assumption.
Qed.

Lemma py_distinct_fresh l x r : py_distinct (l ++ x :: r) -> py_in x l = false.
Proof.
  intros Hd. apply py_in_false. intros e He.
  apply list_elem_of_lookup_1 in He as [i Hi].
  apply (Hd i (length l) e x).
  - eapply lookup_lt_Some. exact Hi.
  - apply lookup_app_l_Some. exact Hi.
  - apply list_lookup_middle. reflexivity.
Qed.

Lemma kept_all sublist ids names :
  py_distinct (ids ++ map value_id sublist) ->
  py_distinct (names ++ map name sublist) ->
  kept sublist ids names = sublist.
Proof.
  revert ids names. induction sublist as [|val rest IH]; intros ids names Hi Hn; simpl.
  - reflexivity.
  - simpl in Hi, Hn.
    rewrite (py_distinct_fresh _ _ _ Hi), (py_distinct_fresh _ _ _ Hn). simpl.
    f_equal. apply IH; rewrite <- app_assoc; assumption.
Qed.

Lemma segments_all result ids :
  py_distinct (ids ++ map value_id (concat result)) ->
  Forall (fun view => py_distinct (map name view)) result ->
  segments result ids = result.
Proof.
  revert ids. induction result as [|sublist rest IH]; intros ids Hi Hn; simpl.
  - reflexivity.
  - apply Forall_cons in Hn as [Hn1 Hn2].
    simpl in Hi. rewrite map_app, app_assoc in Hi.
    assert (Hk : kept sublist ids [] = sublist).
    { apply kept_all; [eapply py_distinct_prefix; exact Hi|exact Hn1]. }
    rewrite Hk. f_equal. apply IH; assumption.
Qed.

(** X13: when no two parameters have equal value ids and no two
    parameters of one view have equal names, the flattening drops nothing:
    the result is the views' parameters, last view first, each view in its
    own order. *)
Theorem flatten_without_collisions result :
  py_distinct (map value_id (concat (rev result))) ->
  Forall (fun view => py_distinct (map name view)) result ->
  flatten result = concat (rev result).
Proof.
  intros Hi Hn. rewrite flatten_segments. f_equal.
  apply segments_all; [exact Hi|].
  apply Forall_forall. intros view Hv. rewrite Forall_forall in Hn.
  apply Hn. apply list_elem_of_In, in_rev, list_elem_of_In in Hv. exact Hv.
Qed.

(** X14: the flattening never invents or reorders: its result is a
    subsequence of the views' parameters taken last view first. *)
Theorem flatten_sublist_of_views result :
  flatten result `sublist_of` concat (rev result).
Proof.
  rewrite flatten_segments.
  generalize (segments_views (rev result) []).
  generalize (segments (rev result) []) (rev result).
  intros segs0 views0 Hs.
  induction Hs as [|seg view segs views [Hsub _] _ IH]; simpl.
  - constructor.
  - apply sublist_app; assumption.
Qed.

(** * The callers of the request: further properties *)

Lemma dict_get_app (k : string) (d1 d2 : list (string * json)) :
  dict_get k (d1 ++ d2) =
  match dict_get k d1 with Some v => Some v | None => dict_get k d2 end.
Proof.
  induction d1 as [|[k' v'] d1 IH]; simpl; [reflexivity|].
  destruct (String.eqb k' k); [reflexivity|exact IH].
Qed.

Lemma dict_get_set (k k' : string) (v : json) d :
  dict_get k' (dict_set k v d) = if String.eqb k k' then Some v else dict_get k' d.
Proof.
  destruct (String.eqb k k') eqn:E.
  - apply String.eqb_eq in E. subst k'. apply dict_get_set_same.
  - apply String.eqb_neq in E. apply dict_get_set_other. exact E.
Qed.

(** A dict display answers a key with the last member written under it. *)
Lemma dict_display_get members k :
  getitem (dict_display members) k =
  match dict_get k (rev members) with Some v => Ok v | None => Raise KeyError end.
Proof.
  unfold dict_display. simpl.
  assert (G : forall acc,
             dict_get k (fold_left (fun d kv => dict_set (fst kv) (snd kv) d) members acc) =
             match dict_get k (rev members) with
             | Some v => Some v
             | None => dict_get k acc
             end).
  { induction members as [|[k0 v0] rest IH]; intros acc; simpl; [reflexivity|].
    rewrite IH, dict_get_app, dict_get_set. simpl.
    destruct (dict_get k (rev rest)); [reflexivity|].
    destruct (String.eqb k0 k); reflexivity. }
  rewrite G. simpl. destruct (dict_get k (rev members)); reflexivity.
Qed.

Lemma dict_get_NoDup (members : list (string * json)) k v :
  NoDup (map fst members) -> In (k, v) members -> dict_get k members = Some v.
Proof.
  induction members as [|[k0 v0] rest IH]; simpl; intros Hnd Hin; [contradiction|].
  apply NoDup_cons in Hnd as [Hfresh Hnd].
  destruct Hin as [E|Hin].
  - inversion E; subst. rewrite String.eqb_refl. reflexivity.
  - assert (Hne : k0 <> k).
    { intros ->. apply Hfresh. apply list_elem_of_In.
      apply (in_map fst) in Hin. exact Hin. }
    apply String.eqb_neq in Hne. rewrite Hne. apply IH; assumption.
Qed.

Lemma dict_display_member members k v :
  NoDup (map fst members) -> In (k, v) members ->
  getitem (dict_display members) k = Ok v.
Proof.
  intros Hnd Hin. rewrite dict_display_get.
  rewrite (dict_get_NoDup (rev members) k v).
  - reflexivity.
  - rewrite map_rev. apply NoDup_ListNoDup, List.NoDup_rev, NoDup_ListNoDup. exact Hnd.
  - apply in_rev. rewrite rev_involutive. exact Hin.
Qed.

Section ValueFacts.
Context `{Constants} `{Helpers} {W : Type} `{World W}.

(** What the callers of [__request] rely on: every HTTP call of a run is the
    call asked for, keeps the caller's headers, and the run leaves
    [last_access] alone. *)
Lemma request_summary method path kw c w :
  let o := __request method path kw c w in
  Forall (same_call method (String.append BASE_URL_PORTAL (String.append "/" path)) kw)
         (evs o) /\
  (forall supplied k v,
     kw_headers kw = Some supplied -> supplied !! k = Some v ->
     Forall (fun kw' => exists h, kw_headers kw' = Some h /\ h !! k = Some v)
            (request_kwargs (evs o))) /\
  last_access (self o) = last_access c.
Proof.
  intros o. subst o. split; [|split].
  - destruct c as [tk sid la lf stamp].
    unfold __request. unfold_client. simpl.
    destruct tk, stamp; repeat run_step.
    all: try use_tail handle_response_same_call.
    all: repeat (constructor; [simpl; auto|]); try constructor; try assumption.
  - intros supplied k v Hsup Hk. destruct kw as [hd pr js]. simpl in Hsup. subst hd.
    assert (Hfirst : forall tok, (supplied ∪ bearer_header tok) !! k = Some v).
    { intros tok. apply lookup_union_Some_l. exact Hk. }
    destruct c as [tk sid la lf stamp].
    unfold __request. unfold_client. simpl.
    destruct tk, stamp; repeat run_step.
    all: try match goal with
         | E : handle_response ?h ?kw' ?m ?p ?r ?c' ?w' = _ |- _ =>
             pose proof (handle_response_headers h kw' m p r c' w' k v (Hfirst _)) as Htail;
             rewrite E in Htail; simpl in Htail
         end.
    all: repeat (constructor; [eexists; split; [reflexivity|apply Hfirst]|]);
         try constructor; try assumption.
  - destruct c as [tk sid la lf stamp].
    unfold __request. unfold_client. simpl.
    destruct tk, stamp; repeat run_step.
    all: try use_tail handle_response_frame.
    all: try match goal with Htail : _ /\ _ |- _ => destruct Htail as [Hla Hts] end.
    all: try assumption; reflexivity.
Qed.

Lemma same_call_json method url kw l data :
  kw_json kw = Some data ->
  Forall (same_call method url kw) l ->
  Forall (fun k => kw_json k = Some data) (request_kwargs l).
Proof.
  intros Hj. induction 1 as [|e l He _ IH]; simpl; [constructor|].
  destruct e; simpl in *; try exact IH.
  constructor; [|exact IH]. destruct He as (_ & _ & _ & ->). exact Hj.
Qed.

Lemma fetch_value_trace g s ps c w :
  let o := __request "post" "api/portal/GetParameterValues"
                     (values_kwargs c g s ps) c w in
  let o' := fetch_value g s ps c w in
  evs o' = evs o /\ world o' = world o /\
  tokens (self o') = tokens (self o) /\ session_id (self o') = session_id (self o) /\
  last_failed (self o') = last_failed (self o) /\
  last_session_refesh (self o') = last_session_refesh (self o).
Proof.
  intros o o'.
  assert (E : o' = fetch_value g s ps c w) by reflexivity. clearbody o'.
  subst o. unfold fetch_value in E. unfold bind at 1 in E.
  destruct (__request _ _ _ c w) as [[j|e] c' w' ev]; simpl in *;
    [|subst o'; repeat split; reflexivity].
  unfold bind, lift, set_last_access, modify in E.
  destruct (check_error j); simpl in E;
    [|subst o'; simpl; rewrite app_nil_r; repeat split; reflexivity].
  destruct (getitem j LAST_ACCESS); simpl in E;
    [|subst o'; simpl; rewrite app_nil_r; repeat split; reflexivity].
  destruct (getitem j VALUES) as [vs|]; simpl in E;
    [|subst o'; simpl; rewrite app_nil_r; repeat split; reflexivity].
  destruct (iter vs) as [es|]; simpl in E;
    [|subst o'; simpl; rewrite app_nil_r; repeat split; reflexivity].
  destruct (values_of es); simpl in E;
    subst o'; simpl; rewrite app_nil_r; repeat split; reflexivity.
Qed.

(** X15: every HTTP call of [fetch_value] is a [post] to
    [BASE_URL_PORTAL/api/portal/GetParameterValues] without query
    parameters, with the header [Content-Type: application/json] and with
    the same body; when the eight member names are distinct, the body holds
    bundle id 1000, bundle false, the parameters' value ids in order, the
    gateway and system ids, gui-id-changed false, and the session id and
    last access the client had when [fetch_value] was called. *)
Theorem fetch_value_request_shape g s ps c w :
  let l := evs (fetch_value g s ps c w) in
  let data := values_payload c g s ps in
  Forall (same_call "post"
            (String.append BASE_URL_PORTAL (String.append "/" "api/portal/GetParameterValues"))
            (MkKwargs None None (Some data))) l /\
  Forall (fun k => exists h, kw_headers k = Some h /\
                             h !! "Content-Type" = Some "application/json")
         (request_kwargs l) /\
  (NoDup [BUNDLE_ID; BUNDLE; VALUE_ID_LIST; GATEWAY_ID; SYSTEM_ID; GUI_ID_CHANGED;
          SESSION_ID; LAST_ACCESS] ->
   getitem data BUNDLE_ID = Ok (JInt 1000) /\
   getitem data BUNDLE = Ok (JBool false) /\
   getitem data VALUE_ID_LIST = Ok (JList (map value_id ps)) /\
   getitem data GATEWAY_ID = Ok g /\
   getitem data SYSTEM_ID = Ok s /\
   getitem data GUI_ID_CHANGED = Ok (JBool false) /\
   getitem data SESSION_ID = Ok (session_id c) /\
   getitem data LAST_ACCESS = Ok (last_access c)).
Proof.
  intros l data. subst l data.
  destruct (fetch_value_trace g s ps c w) as (-> & _).
  destruct (request_summary "post" "api/portal/GetParameterValues"
              (values_kwargs c g s ps) c w) as (Hcall & Hhead & _).
  split; [exact Hcall|]. split.
  - apply (Hhead {[ "Content-Type" := "application/json" ]}); [reflexivity|].
    apply lookup_singleton_eq.
  - intros Hnd. unfold values_payload.
    repeat split; apply dict_display_member; simpl; auto 10.
Qed.

(** X16: when the request raises, when the response is an error object, or
    when it has no last-access member, [fetch_value] leaves the client as
    the request left it, so [last_access] is what it was before the call; a
    list response likewise changes nothing, and raises [TypeError] unless it
    contains the error code or error type name. *)
Theorem fetch_value_failure_keeps_last_access g s ps c w :
  let o := __request "post" "api/portal/GetParameterValues"
                     (values_kwargs c g s ps) c w in
  let o' := fetch_value g s ps c w in
  (forall e, res o = Raise e -> res o' = Raise e /\ self o' = self o) /\
  (forall d, res o = Ok (JDict d) ->
     dict_mem ERROR_CODE d || dict_mem ERROR_TYPE d = true ->
     self o' = self o /\ last_access (self o') = last_access c) /\
  (forall d, res o = Ok (JDict d) ->
     dict_get ERROR_CODE d = None -> dict_get ERROR_TYPE d = None ->
     dict_get LAST_ACCESS d = None ->
     res o' = Raise KeyError /\ self o' = self o /\
     last_access (self o') = last_access c) /\
  (forall l, res o = Ok (JList l) ->
     self o' = self o /\
     (py_in (JStr ERROR_CODE) l = false -> py_in (JStr ERROR_TYPE) l = false ->
      res o' = Raise TypeError)).
Proof.
  intros o o'.
  pose proof (request_summary "post" "api/portal/GetParameterValues"
                (values_kwargs c g s ps) c w) as (_ & _ & Hla).
  fold o in Hla.
  assert (E : o' = fetch_value g s ps c w) by reflexivity. clearbody o'.
  subst o. unfold fetch_value in E. unfold bind at 1 in E.
  destruct (__request _ _ _ c w) as [r c' w' ev]. simpl in *.
  split; [|split; [|split]].
  - intros e ->. subst o'. auto.
  - intros d -> Herr.
    assert (Hc : exists e, check_error (JDict d) = Raise e).
    { unfold check_error. simpl.
      destruct (dict_mem ERROR_CODE d); simpl in *; [|rewrite Herr];
        rewrite dict_mem_get;
        (destruct (dict_get ERROR_MESSAGE d) as [msg|]; simpl;
         [destruct (py_eq msg _)|]); eauto. }
    destruct Hc as [e Hc].
    unfold bind at 1 in E. unfold lift at 1 in E. rewrite Hc in E.
    subst o'. simpl. auto.
  - intros d -> Hcode Htype Hmiss.
    unfold bind, lift, set_last_access, modify, check_error in E. simpl in E.
    rewrite !dict_mem_get, Hcode, Htype in E. simpl in E. rewrite Hmiss in E.
    subst o'. simpl. auto.
  - intros l ->.
    unfold bind, lift, set_last_access, modify, check_error in E. simpl in E.
    destruct (py_in (JStr ERROR_CODE) l); simpl in E.
    + destruct (py_in (JStr ERROR_MESSAGE) l); simpl in E; subst o';
        (split; [reflexivity|discriminate]).
    + destruct (py_in (JStr ERROR_TYPE) l); simpl in E; [|subst o'; auto].
      destruct (py_in (JStr ERROR_MESSAGE) l); simpl in E; subst o';
        (split; [reflexivity|discriminate]).
Qed.

(** X17: [fetch_value] stores the response's last access before it reads
    the values: it is stored also when the values member is missing
    ([KeyError]), null ([TypeError]), or has an entry with a raw value but
    no value id or no state ([KeyError]). *)
Theorem fetch_value_stores_before_values g s ps c w d la :
  let o := __request "post" "api/portal/GetParameterValues"
                     (values_kwargs c g s ps) c w in
  res o = Ok (JDict d) ->
  dict_get ERROR_CODE d = None -> dict_get ERROR_TYPE d = None ->
  dict_get LAST_ACCESS d = Some la ->
  let o' := fetch_value g s ps c w in
  last_access (self o') = la /\
  (dict_get VALUES d = None -> res o' = Raise KeyError) /\
  (dict_get VALUES d = Some JNull -> res o' = Raise TypeError) /\
  (forall before m after x,
     dict_get VALUES d = Some (JList (before ++ JDict m :: after)) ->
     Forall (fun e => entry_ok e = true) before ->
     dict_get VALUE m = Some x ->
     dict_get VALUE_ID m = None \/ dict_get STATE m = None ->
     res o' = Raise KeyError).
Proof.
  intros o Hres Hcode Htype Hla o'.
  assert (E : o' = fetch_value g s ps c w) by reflexivity. clearbody o'.
  subst o. unfold fetch_value in E. unfold bind at 1 in E.
  destruct (__request _ _ _ c w) as [r c' w' ev]. simpl in Hres. subst r.
  unfold bind, lift, set_last_access, modify, check_error in E. simpl in E.
  rewrite !dict_mem_get, Hcode, Htype in E. simpl in E. rewrite Hla in E. simpl in E.
  split; [|split; [|split]].
  - subst o'. destruct (dict_get VALUES d) as [vs|]; simpl; [|reflexivity].
    destruct (iter vs) as [es|]; simpl; [|reflexivity].
    destruct (values_of es); reflexivity.
  - intros Hv. rewrite Hv in E. subst o'. reflexivity.
  - intros Hv. rewrite Hv in E. subst o'. reflexivity.
  - intros before m after x Hv Hbefore Hx Hmiss. rewrite Hv in E. simpl in E.
    assert (Hr : values_of (before ++ JDict m :: after) = Raise KeyError).
    { clear E Hv. induction Hbefore as [|e before He _ IH]; simpl.
      - rewrite dict_mem_get, Hx. simpl.
        destruct (dict_get VALUE_ID m); simpl; [|reflexivity].
        destruct (dict_get STATE m); simpl; [|reflexivity].
        destruct Hmiss as [F|F]; discriminate F.
      - destruct e as [| | | | |m']; try discriminate He. simpl in *.
        rewrite IH. destruct (dict_mem VALUE m'); simpl; [|reflexivity].
        destruct (dict_get VALUE_ID m'); simpl; [|reflexivity].
        destruct (dict_get VALUE m'); simpl; [|reflexivity].
        destruct (dict_get STATE m'); reflexivity. }
    rewrite Hr in E. subst o'. reflexivity.
Qed.

(** X18: the last access a poll stored is the one every HTTP call of the
    next poll sends. *)
Theorem poll_sends_stored_last_access g s ps c w d la g' s' ps' :
  let o := __request "post" "api/portal/GetParameterValues"
                     (values_kwargs c g s ps) c w in
  res o = Ok (JDict d) ->
  dict_get ERROR_CODE d = None -> dict_get ERROR_TYPE d = None ->
  dict_get LAST_ACCESS d = Some la ->
  let o1 := fetch_value g s ps c w in
  let o2 := fetch_value g' s' ps' (self o1) (world o1) in
  Forall (fun k => exists data, kw_json k = Some data /\
                                getitem data LAST_ACCESS = Ok la)
         (request_kwargs (evs o2)).
Proof.
  intros o Hres Hcode Htype Hla o1 o2.
  assert (Hstored : last_access (self o1) = la).
  { assert (E : o1 = fetch_value g s ps c w) by reflexivity. clearbody o1.
    subst o. unfold fetch_value in E. unfold bind at 1 in E.
    destruct (__request _ _ _ c w) as [r c' w' ev]. simpl in Hres. subst r.
    unfold bind, lift, set_last_access, modify, check_error in E. simpl in E.
    rewrite !dict_mem_get, Hcode, Htype in E. simpl in E. rewrite Hla in E.
    simpl in E. subst o1.
    destruct (dict_get VALUES d) as [vs|]; simpl; [|reflexivity].
    destruct (iter vs) as [es|]; simpl; [|reflexivity].
    destruct (values_of es); reflexivity. }
  clearbody o1. subst o2.
  destruct (fetch_value_trace g' s' ps' (self o1) (world o1)) as (-> & _).
  destruct (request_summary "post" "api/portal/GetParameterValues"
              (values_kwargs (self o1) g' s' ps') (self o1) (world o1))
    as (Hcall & _).
  eapply Forall_impl.
  - eapply same_call_json; [|exact Hcall]. reflexivity.
  - intros k Hk. eexists. split; [exact Hk|].
    unfold values_payload. rewrite dict_display_get. simpl.
    rewrite String.eqb_refl, Hstored. reflexivity.
Qed.
End ValueFacts.

Section SystemFacts.
Context `{Constants} `{SystemConstants} `{Helpers} {W : Type} `{World W}.

(** X19: the session id in the body of [close_system],
    [fetch_system_state_list] and [fetch_value] is the one the client held
    when the method was called, in every HTTP call: a session the request
    itself opens is not the one sent. *)
Theorem session_id_sent_is_the_callers g s ps c w :
  let sent f := Forall (fun k => exists data, kw_json k = Some data /\
                                  getitem data SESSION_ID = Ok (session_id c))
                       (request_kwargs f) in
  sent (evs (close_system c w)) /\
  (SESSION_ID <> SYSTEM_LIST -> sent (evs (fetch_system_state_list s g c w))) /\
  (SESSION_ID <> LAST_ACCESS -> sent (evs (fetch_value g s ps c w))).
Proof.
  intros sent. subst sent. split; [|split].
  - unfold close_system. unfold bind at 1.
    pose proof (request_summary "post" "api/portal/CloseSystem"
                  (MkKwargs None None (Some (dict_display [(SESSION_ID, session_id c)])))
                  c w) as (Hcall & _).
    destruct (__request _ _ _ c w) as [[j|e] c' w' ev]; simpl in *;
      rewrite ?app_nil_r.
    all: eapply Forall_impl;
      [eapply same_call_json; [|exact Hcall]; reflexivity|].
    all: intros k Hk; eexists; (split; [exact Hk|]);
      rewrite dict_display_get; simpl; rewrite String.eqb_refl; reflexivity.
  - intros Hne. unfold fetch_system_state_list. unfold bind at 1.
    pose proof (request_summary "post" "api/portal/GetSystemStateList"
                  (MkKwargs None None (Some (state_payload c s g))) c w) as (Hcall & _).
    destruct (__request _ _ _ c w) as [[j|e] c' w' ev]; simpl in *.
    1: unfold lift; destruct (is_online_of j); simpl; rewrite app_nil_r.
    all: eapply Forall_impl;
      [eapply same_call_json; [|exact Hcall]; reflexivity|].
    all: intros k Hk; eexists; (split; [exact Hk|]);
      unfold state_payload; rewrite dict_display_get; simpl;
      apply not_eq_sym, String.eqb_neq in Hne; rewrite Hne, String.eqb_refl;
      reflexivity.
  - intros Hne.
    destruct (fetch_value_trace g s ps c w) as (-> & _).
    pose proof (request_summary "post" "api/portal/GetParameterValues"
                  (values_kwargs c g s ps) c w) as (Hcall & _).
    eapply Forall_impl;
      [eapply same_call_json; [|exact Hcall]; reflexivity|].
    intros k Hk. eexists. split; [exact Hk|].
    unfold values_payload. rewrite dict_display_get. simpl.
    apply not_eq_sym, String.eqb_neq in Hne. rewrite Hne, String.eqb_refl.
    reflexivity.
Qed.

(** X20: [fetch_system_list] leaves the client and the trace as its
    request left them; a list of objects that all have the id, the gateway
    id and the name gives one device per object, in order; an object that
    lacks one of the three raises [KeyError]; a non-empty object as response
    raises [TypeError]. *)
Theorem fetch_system_list_devices c w :
  let o := __request "get" "api/portal/GetSystemList" (MkKwargs None None None) c w in
  let o' := fetch_system_list c w in
  self o' = self o /\ evs o' = evs o /\
  (forall e, res o = Raise e -> res o' = Raise e) /\
  (forall systems,
     res o = Ok (JList systems) ->
     Forall (fun sys => exists m, sys = JDict m /\
               dict_mem ID m && dict_mem GATEWAY_ID m && dict_mem NAME m = true)
            systems ->
     exists devices,
       res o' = Ok devices /\
       Forall2 (fun sys dev => exists i g n,
                  dev = MkDevice i g n /\ getitem sys ID = Ok i /\
                  getitem sys GATEWAY_ID = Ok g /\ getitem sys NAME = Ok n)
               systems devices) /\
  (forall systems before m after,
     res o = Ok (JList systems) -> systems = before ++ JDict m :: after ->
     Forall (fun sys => exists dev, device_of sys = Ok dev) before ->
     dict_get ID m = None \/ dict_get GATEWAY_ID m = None \/ dict_get NAME m = None ->
     res o' = Raise KeyError) /\
  (forall k v d, res o = Ok (JDict ((k, v) :: d)) -> res o' = Raise TypeError).
Proof.
  intros o o'.
  assert (E : o' = fetch_system_list c w) by reflexivity. clearbody o'.
  subst o. unfold fetch_system_list in E. unfold bind at 1 in E.
  destruct (__request _ _ _ c w) as [[j|e] c' w' ev]; simpl in *.
  2: { subst o'. simpl. repeat split; try discriminate.
       intros e' E'. inversion E'. reflexivity. }
  unfold bind, lift in E.
  assert (Hse : self o' = c' /\ evs o' = ev).
  { subst o'. destruct (iter j) as [ss|]; simpl; [|rewrite app_nil_r; auto].
    destruct (rmap device_of ss); simpl; rewrite app_nil_r; auto. }
  destruct Hse as [Hs He]. split; [exact Hs|]. split; [exact He|].
  split; [discriminate|]. split; [|split].
  - intros systems Hj Hok. inversion Hj; subst j. simpl in E.
    assert (Hd : exists devices, rmap device_of systems = Ok devices /\
              Forall2 (fun sys dev => exists i g n,
                  dev = MkDevice i g n /\ getitem sys ID = Ok i /\
                  getitem sys GATEWAY_ID = Ok g /\ getitem sys NAME = Ok n)
               systems devices).
    { clear E Hj. induction Hok as [|sys systems (m & -> & Hm) _ (devs & Hr & IH)]; simpl.
      - exists []. split; [reflexivity|constructor].
      - apply andb_true_iff in Hm as [Hm Hn]. apply andb_true_iff in Hm as [Hi Hg].
        unfold dict_mem in Hi, Hg, Hn. unfold device_of at 1. simpl.
        destruct (dict_get ID m) as [i|] eqn:Ei; [|discriminate Hi].
        destruct (dict_get GATEWAY_ID m) as [g|] eqn:Eg; [|discriminate Hg].
        destruct (dict_get NAME m) as [n|] eqn:En; [|discriminate Hn].
        simpl. rewrite Hr. simpl.
        exists (MkDevice i g n :: devs). split; [reflexivity|].
        constructor; [|exact IH]. exists i, g, n. simpl.
        rewrite Ei, Eg, En. auto. }
    destruct Hd as (devices & Hr & Hrel). exists devices.
    rewrite Hr in E. subst o'. split; [reflexivity|exact Hrel].
  - intros systems before m after Hj -> Hbefore Hmiss. inversion Hj; subst j.
    simpl in E.
    assert (Hr : rmap device_of (before ++ JDict m :: after) = Raise KeyError).
    { clear E Hj. induction Hbefore as [|sys before [dev Hdev] _ IH]; simpl.
      - unfold device_of at 1. simpl.
        destruct (dict_get ID m); simpl; [|reflexivity].
        destruct (dict_get GATEWAY_ID m); simpl; [|reflexivity].
        destruct (dict_get NAME m); simpl; [|reflexivity].
        destruct Hmiss as [F|[F|F]]; discriminate F.
      - rewrite Hdev. simpl. rewrite IH. reflexivity. }
    rewrite Hr in E. subst o'. reflexivity.
  - intros k v d Hj. inversion Hj; subst j. simpl in E. subst o'. reflexivity.
Qed.

(** X21: [fetch_system_state_list] returns the online member of the
    gateway state of the first element of the response, whatever follows
    it; an empty list raises [IndexError], an object raises [KeyError]; the
    client and the trace are as the request left them. *)
Theorem fetch_system_state_list_first s g c w :
  let o := __request "post" "api/portal/GetSystemStateList"
                     (MkKwargs None None (Some (state_payload c s g))) c w in
  let o' := fetch_system_state_list s g c w in
  self o' = self o /\ evs o' = evs o /\
  (forall e, res o = Raise e -> res o' = Raise e) /\
  (forall first rest state online,
     res o = Ok (JList (first :: rest)) ->
     getitem first GATEWAY_STATE = Ok state -> getitem state IS_ONLINE = Ok online ->
     res o' = Ok online) /\
  (res o = Ok (JList []) -> res o' = Raise IndexError) /\
  (forall d, res o = Ok (JDict d) -> res o' = Raise KeyError).
Proof.
  intros o o'.
  assert (E : o' = fetch_system_state_list s g c w) by reflexivity. clearbody o'.
  subst o. unfold fetch_system_state_list in E. unfold bind at 1 in E.
  destruct (__request _ _ _ c w) as [[j|e] c' w' ev]; simpl in *.
  2: { subst o'. simpl. repeat split; try discriminate.
       intros e' E'. inversion E'. reflexivity. }
  unfold lift in E.
  assert (Hse : self o' = c' /\ evs o' = ev).
  { subst o'. destruct (is_online_of j); simpl; rewrite app_nil_r; auto. }
  destruct Hse as [Hs He]. split; [exact Hs|]. split; [exact He|].
  split; [discriminate|]. split; [|split].
  - intros first rest state online Hj Hst Hon. inversion Hj; subst j.
    unfold is_online_of in E. simpl in E. rewrite Hst in E. simpl in E.
    rewrite Hon in E. subst o'. reflexivity.
  - intros Hj. inversion Hj; subst j. subst o'. reflexivity.
  - intros d Hj. inversion Hj; subst j. subst o'. reflexivity.
Qed.

(** X22: [close_system] returns nothing whatever body the server sent,
    raises what the request raises, and itself changes nothing: unless the
    request re-authenticated, the client still holds its tokens and its
    session id after closing. *)
Theorem close_system_drops_response c w :
  let o := __request "post" "api/portal/CloseSystem"
             (MkKwargs None None (Some (dict_display [(SESSION_ID, session_id c)]))) c w in
  let o' := close_system c w in
  (forall b, res o = Ok b -> res o' = Ok tt) /\
  (forall e, res o = Raise e -> res o' = Raise e) /\
  self o' = self o /\ evs o' = evs o /\
  (existsb is_token (evs o') = false ->
   tokens (self o') = tokens c /\ session_id (self o') = session_id c).
Proof.
  intros o o'.
  assert (E : o' = close_system c w) by reflexivity. clearbody o'.
  assert (Hframe : existsb is_token (evs o) = false ->
                   tokens (self o) = tokens c /\ session_id (self o) = session_id c).
  { subst o. destruct c as [tk sid la lf stamp].
    unfold __request. unfold_client. simpl.
    destruct tk, stamp; repeat run_step.
    all: try match goal with
         | E : handle_response ?h ?k ?m ?p ?r ?c ?w = _ |- _ =>
             pose proof (handle_response_frame h k m p r c w) as Htail;
             rewrite E in Htail; simpl in Htail; destruct Htail as [_ Hts]
         end.
    all: intros F; try discriminate F; auto. }
  subst o. unfold close_system in E. unfold bind at 1 in E.
  destruct (__request _ _ _ c w) as [[j|e] c' w' ev]; simpl in *; subst o'; simpl;
    rewrite ?app_nil_r.
  - repeat split; try discriminate; apply Hframe; assumption.
  - repeat split; try discriminate; try (apply Hframe; assumption).
    intros e' E'. inversion E'. reflexivity.
Qed.
End SystemFacts.

(** * The constructor and the transport: further properties *)

(** X23: the constructor refuses a transport together with a transport
    factory; otherwise it gives the state of a fresh client, and the
    [client] property then answers with the given transport, with what the
    factory returns on this access, or with the default transport, so it
    raises only what the factory raises. *)
Theorem client_after_init {T : Type} (AsyncClient : T) :
  (forall cl f,
     __init__ AsyncClient (Some cl) (Some f) =
     Raise (OtherError "RuntimeError: Only one of client and client_lambda is allowed!")) /\
  (forall given given_lambda attrs c,
     __init__ AsyncClient given given_lambda = Ok (attrs, c) ->
     c = init /\
     (forall cl, given = Some cl -> client attrs = Ok cl) /\
     (forall f, given = None -> given_lambda = Some f -> client attrs = f tt) /\
     (given = None -> given_lambda = None -> client attrs = Ok AsyncClient) /\
     (forall e, client attrs = Raise e ->
                exists f, given_lambda = Some f /\ f tt = Raise e)).
Proof.
  split; [reflexivity|].
  intros [cl|] [f|] attrs c Hinit; simpl in Hinit; inversion Hinit; subst.
  - split; [reflexivity|]. split; [|split; [|split]].
    + intros cl' E. inversion E. reflexivity.
    + intros f' E. discriminate E.
    + intros E. discriminate E.
    + intros e E. discriminate E.
  - split; [reflexivity|]. split; [|split; [|split]].
    + intros cl' E. discriminate E.
    + intros f' _ E. inversion E. reflexivity.
    + intros _ E. discriminate E.
    + intros e E. exists f. split; [reflexivity|exact E].
  - split; [reflexivity|]. split; [|split; [|split]].
    + intros cl' E. discriminate E.
    + intros f' _ E. discriminate E.
    + reflexivity.
    + intros e E. discriminate E.
Qed.

(** * Failures before the first response, and two more request shapes *)

Section LaterRequestFacts.
Context `{Constants} `{Helpers} {W : Type} `{World W}.

Lemma handle_response_no_keepalive h kw m p resp c w tok sid r :
  ~ In (EvUpdateSession tok sid r) (evs (handle_response h kw m p resp c w)).
Proof.
  destruct c as [tk sid0 la lf stamp]. destruct resp as [sc bd].
  unfold handle_response. unfold_client. simpl.
  repeat run_step; simpl; intuition discriminate.
Qed.

(** X24: when the first HTTP call of a request raises, the request raises
    the same exception and leaves [last_failed] as it was, also when the
    exception is [FetchFailed]: only the second attempt sets the flag. *)
Theorem first_call_exception_passes method path kw c w e :
  let o := __request method path kw c w in
  head (responses (evs o)) = Some (Raise e) ->
  res o = Raise e /\ last_failed (self o) = last_failed c.
Proof.
  intros o. subst o. destruct c as [tk sid la lf stamp].
  unfold __request. unfold_client. simpl.
  destruct tk, stamp; repeat run_step; intros E; try discriminate E.
  all: inversion E; subst; split; reflexivity.
Qed.

(** X25: when the keepalive of a request raises, the request raises the
    same exception, makes no HTTP call, and leaves [last_session_refesh] as
    it was, so the keepalive is due again at the next request. *)
Theorem keepalive_failure method path kw c w tok sid e :
  let o := __request method path kw c w in
  In (EvUpdateSession tok sid (Raise e)) (evs o) ->
  res o = Raise e /\ existsb is_request (evs o) = false /\
  last_session_refesh (self o) = last_session_refesh c.
Proof.
  intros o. subst o. destruct c as [tk sid0 la lf stamp].
  unfold __request. unfold_client. simpl.
  destruct tk, stamp; repeat run_step; intros E.
  all: try match goal with
       | Eq : handle_response ?h ?k ?m ?p ?r ?c ?w = _ |- _ =>
           pose proof (handle_response_no_keepalive h k m p r c w tok sid (Raise e)) as Hno;
           rewrite Eq in Hno; simpl in Hno
       end.
  all: simpl in E.
  all: repeat match type of E with
              | _ \/ _ => destruct E as [E|E]; try discriminate E
              | False => contradiction
              end.
  all: try (exfalso; apply Hno; exact E).
  all: try (inversion E; subst; repeat split; reflexivity).
Qed.
End LaterRequestFacts.

(** Two different names are a duplicate-free list. *)
Lemma NoDup_pair (a b : string) : a <> b -> NoDup [a; b].
Proof.
  intros Hne. apply NoDup_cons. split; [|apply NoDup_singleton].
  intros Hin. apply list_elem_of_In in Hin. destruct Hin as [E|[]]. congruence.
Qed.

Section LaterSystemFacts.
Context `{Constants} `{SystemConstants} `{Helpers} {W : Type} `{World W}.

(** X26: [fetch_parameters] leaves the client and the trace as its request
    left them and never changes [last_access]; every HTTP call it makes is a
    [get] of [BASE_URL_PORTAL/api/portal/GetGuiDescriptionForGateway]
    without body, with the same query parameters, which hold the gateway id
    and the system id when the two names differ. *)
Theorem fetch_parameters_request g s c w :
  let payload := dict_display [(GATEWAY_ID, g); (SYSTEM_ID, s)] in
  let o := __request "get" "api/portal/GetGuiDescriptionForGateway"
                     (MkKwargs None (Some payload) None) c w in
  let o' := fetch_parameters g s c w in
  self o' = self o /\ evs o' = evs o /\ last_access (self o') = last_access c /\
  Forall (same_call "get"
            (String.append BASE_URL_PORTAL
               (String.append "/" "api/portal/GetGuiDescriptionForGateway"))
            (MkKwargs None (Some payload) None)) (evs o') /\
  (GATEWAY_ID <> SYSTEM_ID ->
   getitem payload GATEWAY_ID = Ok g /\ getitem payload SYSTEM_ID = Ok s).
Proof.
  intros payload o o'.
  destruct (request_summary "get" "api/portal/GetGuiDescriptionForGateway"
              (MkKwargs None (Some payload) None) c w) as (Hcall & _ & Hla).
  fold o in Hcall, Hla.
  assert (E : self o' = self o /\ evs o' = evs o).
  { subst o o'. unfold fetch_parameters. fold payload.
    assert (E : forall x, x = bind (__request "get" "api/portal/GetGuiDescriptionForGateway"
                              (MkKwargs None (Some payload) None))
                            (fun desc => lift (parameters_of desc)) c w ->
                self x = self (__request "get" "api/portal/GetGuiDescriptionForGateway"
                              (MkKwargs None (Some payload) None) c w) /\
                evs x = evs (__request "get" "api/portal/GetGuiDescriptionForGateway"
                              (MkKwargs None (Some payload) None) c w)).
    { intros x ->. unfold bind.
      destruct (__request _ _ _ c w) as [[j|e] c' w' ev]; simpl; [|auto].
      unfold lift. destruct (parameters_of j); simpl; rewrite app_nil_r; auto. }
    apply E. reflexivity. }
  destruct E as [Es Ee]. rewrite Es, Ee.
  repeat split; try assumption.
  - subst payload. apply dict_display_member; simpl; [|auto].
    apply NoDup_pair. assumption.
  - subst payload. apply dict_display_member; simpl; [|auto].
    apply NoDup_pair. assumption.
Qed.

Lemma state_list_trace s g c w :
  evs (fetch_system_state_list s g c w) =
  evs (__request "post" "api/portal/GetSystemStateList"
                 (MkKwargs None None (Some (state_payload c s g))) c w).
Proof.
  unfold fetch_system_state_list, bind.
  destruct (__request _ _ _ c w) as [[j|e] c' w' ev]; simpl; [|reflexivity].
  unfold lift. destruct (is_online_of j); simpl; apply app_nil_r.
Qed.

(** X27: every HTTP call of [fetch_system_state_list] is a [post] to
    [BASE_URL_PORTAL/api/portal/GetSystemStateList] without query
    parameters and with the same body, whose system list has one element:
    the system id under the system name and the gateway id under the gateway
    name, the method taking the system id first. *)
Theorem state_request_shape s g c w :
  let data := state_payload c s g in
  Forall (same_call "post"
            (String.append BASE_URL_PORTAL (String.append "/" "api/portal/GetSystemStateList"))
            (MkKwargs None None (Some data)))
         (evs (fetch_system_state_list s g c w)) /\
  (SESSION_ID <> SYSTEM_LIST -> SYSTEM_ID <> GATEWAY_ID ->
   exists element,
     getitem data SYSTEM_LIST = Ok (JList [element]) /\
     getitem element SYSTEM_ID = Ok s /\ getitem element GATEWAY_ID = Ok g).
Proof.
  intros data. split.
  - rewrite state_list_trace.
    apply (request_summary "post" "api/portal/GetSystemStateList"
             (MkKwargs None None (Some data)) c w).
  - intros Hne1 Hne2. eexists. subst data. unfold state_payload. split; [|split].
    + apply dict_display_member; simpl; [|auto].
      apply NoDup_pair. assumption.
    + apply dict_display_member; simpl; [|auto].
      apply NoDup_pair. assumption.
    + apply dict_display_member; simpl; [|auto].
      apply NoDup_pair. assumption.
Qed.
End LaterSystemFacts.

(** * The edges of a view *)

(** [dict(pairs)] raises when one of the keys is unhashable. *)
Lemma pydict_of_unhashable pairs acc :
  Exists (fun kv => py_hashable (fst kv) = false) pairs ->
  pydict_of pairs acc = Raise TypeError.
Proof.
  intros Hex. revert acc.
  induction Hex as [[k v] rest Hk|[k v] rest _ IH]; intros acc; simpl in *.
  - rewrite Hk. reflexivity.
  - destruct (py_hashable k); [apply IH|reflexivity].
Qed.

Section ViewEdges.
Context `{Constants}.

(** X28: [_map_view] on a view without the schema-diagram block raises
    [KeyError] when the descriptors are missing, returns the empty list for
    an empty list of descriptors without reading the tab name, and raises
    [KeyError] for a first descriptor when the tab name is missing; with the
    block, an empty device list raises [IndexError], and a unit entry whose
    value id is a list or an object raises [TypeError]. *)
Theorem map_view_edges d :
  let view := JDict d in
  let schema := dict_get "SVGHeatingSchemaConfigDevices" d in
  (schema = None -> dict_get PARAMETER_DESCRIPTORS d = None ->
   _map_view view = Raise KeyError) /\
  (schema = None -> dict_get PARAMETER_DESCRIPTORS d = Some (JList []) ->
   _map_view view = Ok []) /\
  (forall p rest,
     schema = None -> dict_get PARAMETER_DESCRIPTORS d = Some (JList (p :: rest)) ->
     dict_get TAB_NAME d = None -> _map_view view = Raise KeyError) /\
  (schema = Some (JList []) -> _map_view view = Raise IndexError) /\
  (forall device others entries pairs,
     schema = Some (JList (device :: others)) ->
     getitem device "parameters" = Ok (JList entries) ->
     unit_pairs entries = Ok pairs ->
     Exists (fun kv => py_hashable (fst kv) = false) pairs ->
     _map_view view = Raise TypeError).
Proof.
  intros view schema. subst view schema. unfold _map_view. simpl.
  rewrite dict_mem_get.
  split; [|split; [|split; [|split]]].
  - intros -> ->. reflexivity.
  - intros -> ->. reflexivity.
  - intros p rest -> -> Htab. simpl. rewrite Htab. reflexivity.
  - intros ->. reflexivity.
  - intros device others entries pairs -> Hps Hpairs Hex. simpl.
    rewrite Hps. simpl. rewrite Hpairs. simpl.
    rewrite (pydict_of_unhashable pairs [] Hex). reflexivity.
Qed.
End ViewEdges.

(** * Worked runs of the further properties *)

(** X1 on a run: a fresh client whose first call is answered 401 makes two
    calls. *)
Lemma request_at_most_one_retry_witness :
  let rs := responses (evs (@__request sample_constants sample_helpers _ scripted
                              "get" "api/portal/GetSystemList" (MkKwargs None None None)
                              init retry_world)) in
  length rs = 2%nat /\
  exists resp, head rs = Some (Ok resp) /\ is_retry_status (status_code resp) = true.
Proof.
  intros rs. split; [vm_compute; reflexivity|].
  apply (proj1 (proj2 (@request_at_most_one_retry sample_constants sample_helpers _ scripted
                         "get" "api/portal/GetSystemList" (MkKwargs None None None)
                         init retry_world))).
  vm_compute. reflexivity.
Defined.

(** X2 on a run: after a failed request, a response with status 404 is
    returned as it is and clears the flag. *)
Lemma request_passes_other_status_witness :
  let o := @__request sample_constants sample_helpers _ scripted
             "get" "api/portal/GetSystemList" (MkKwargs None None None)
             (MkWolfClient (Some (MkTokens "T0" 3600000000)) (JInt 11) JNull true
                           (Some 60000005%Z))
             [AExpired false; ANow 10; AResponse (Ok (MkResponse 404 (Ok (JStr "gone"))))] in
  res o = Ok (JStr "gone") /\ last_failed (self o) = false.
Proof.
  intros o.
  apply (@request_passes_other_status sample_constants sample_helpers _ scripted
           "get" "api/portal/GetSystemList" (MkKwargs None None None)
           (MkWolfClient (Some (MkTokens "T0" 3600000000)) (JInt 11) JNull true
                         (Some 60000005%Z))
           [AExpired false; ANow 10; AResponse (Ok (MkResponse 404 (Ok (JStr "gone"))))]
           (MkResponse 404 (Ok (JStr "gone")))).
  - vm_compute. reflexivity.
  - vm_compute. reflexivity.
Defined.

(** X4 on a run: a caller's [Authorization] header is the one sent in both
    attempts. *)
Lemma caller_headers_win_witness :
  Forall (fun kw' => exists h, kw_headers kw' = Some h /\
                               h !! "Authorization" = Some "Basic abc")
         (request_kwargs
            (evs (@__request sample_constants sample_helpers _ scripted
                    "get" "api/portal/GetSystemList"
                    (MkKwargs (Some {[ "Authorization" := "Basic abc" ]}) None None)
                    init retry_world))) /\
  length (request_kwargs
            (evs (@__request sample_constants sample_helpers _ scripted
                    "get" "api/portal/GetSystemList"
                    (MkKwargs (Some {[ "Authorization" := "Basic abc" ]}) None None)
                    init retry_world))) = 2%nat.
Proof.
  split; [|vm_compute; reflexivity].
  apply (@caller_headers_win sample_constants sample_helpers _ scripted
           "get" "api/portal/GetSystemList"
           (MkKwargs (Some {[ "Authorization" := "Basic abc" ]}) None None)
           init retry_world {[ "Authorization" := "Basic abc" ]}).
  - reflexivity.
  - apply lookup_singleton_eq.
Defined.

(** X6 on a run: the authenticator refuses the credentials of a fresh
    client. *)
Lemma authentication_failure_witness :
  let o := @__request sample_constants sample_helpers _ scripted
             "get" "api/portal/GetSystemList" (MkKwargs None None None)
             init [AToken (Raise (OtherError "bad credentials"))] in
  res o = Raise (OtherError "bad credentials") /\ self o = init /\
  existsb is_request (evs o) = false.
Proof.
  intros o.
  apply (proj1 (@authentication_failure sample_constants sample_helpers _ scripted
                  "get" "api/portal/GetSystemList" (MkKwargs None None None)
                  init [AToken (Raise (OtherError "bad credentials"))]
                  [AToken (Raise (OtherError "bad credentials"))]
                  (OtherError "bad credentials")
                  (or_introl (conj eq_refl eq_refl))) []).
  reflexivity.
Defined.

(** X7 on a run: the second attempt raises [FetchFailed]. *)
Lemma second_attempt_result_witness :
  let o := @handle_response sample_constants sample_helpers _ scripted
             (@bearer_header sample_helpers "T0") (MkKwargs None None None)
             "get" "api/portal/GetSystemList" (MkResponse 500 (Ok JNull))
             settled_client
             [AToken (Ok (MkTokens "T1" 3600000000)); ASession (Ok (JInt 12));
              AResponse (Raise (FetchFailed (JStr "again")))] in
  res o = Raise (FetchFailed (JStr "again")) /\ last_failed (self o) = true.
Proof.
  intros o.
  destruct (@second_attempt_result sample_constants sample_helpers _ scripted
              (@bearer_header sample_helpers "T0") (MkKwargs None None None)
              "get" "api/portal/GetSystemList" 500%Z (Ok JNull) settled_client
              [AToken (Ok (MkTokens "T1" 3600000000)); ASession (Ok (JInt 12));
               AResponse (Raise (FetchFailed (JStr "again")))]
              (MkTokens "T1" 3600000000)
              [ASession (Ok (JInt 12)); AResponse (Raise (FetchFailed (JStr "again")))]
              (JInt 12)
              [AResponse (Raise (FetchFailed (JStr "again")))]
              (Raise (FetchFailed (JStr "again"))) []
              eq_refl eq_refl eq_refl eq_refl) as (_ & _ & Hraise).
  apply (Hraise (FetchFailed (JStr "again"))). left. reflexivity.
Defined.

(** X8 on a descriptor with a unit. *)
Lemma map_parameter_keeps_identity_witness :
  dict_get (@VALUE_ID sample_constants) own_unit_descriptor =
    Some (value_id (Temperature (JInt 3) (JStr "System pressure") (JStr "Heating") (JInt 1003))) /\
  dict_get (@NAME sample_constants) own_unit_descriptor =
    Some (name (Temperature (JInt 3) (JStr "System pressure") (JStr "Heating") (JInt 1003))) /\
  dict_get (@PARAMETER_ID sample_constants) own_unit_descriptor =
    Some (parameter_id (Temperature (JInt 3) (JStr "System pressure") (JStr "Heating") (JInt 1003))) /\
  parent (Temperature (JInt 3) (JStr "System pressure") (JStr "Heating") (JInt 1003)) =
    JStr "Heating".
Proof.
  apply (@map_parameter_keeps_identity sample_constants own_unit_descriptor (JStr "Heating")).
  vm_compute. reflexivity.
Defined.

(** X10 on the view with the schema-diagram block. *)
Lemma map_view_keeps_descriptors_witness :
  exists descriptors params,
    getitem schema_view (@PARAMETER_DESCRIPTORS sample_constants) = Ok descriptors /\
    iter descriptors = Ok params /\
    Forall2 (fun param p =>
               getitem param (@VALUE_ID sample_constants) = Ok (value_id p) /\
               getitem param (@NAME sample_constants) = Ok (name p) /\
               getitem param (@PARAMETER_ID sample_constants) = Ok (parameter_id p) /\
               getitem schema_view (@TAB_NAME sample_constants) = Ok (parent p))
            params
            [Pressure (JInt 3) (JStr "System pressure") (JStr "Heating") (JInt 1003);
             SimpleParameter (JInt 4) (JStr "Mode") (JStr "Heating") (JInt 1004)].
Proof.
  apply (@map_view_keeps_descriptors sample_constants schema_view).
  - discriminate.
  - discriminate.
  - discriminate.
  - vm_compute. reflexivity.
Defined.

(** X11 on a descriptor whose own unit says temperature and whose schema
    unit says pressure; mapped on its own it is a temperature. *)
Lemma schema_unit_overrides_witness :
  @map_with_units sample_constants [(JInt 3, JStr "bar")]
     (JDict [("tabName", JStr "Heating")]) (JDict own_unit_descriptor) =
    Ok (Pressure (JInt 3) (JStr "System pressure") (JStr "Heating") (JInt 1003)) /\
  @_map_parameter sample_constants (JDict own_unit_descriptor) (JStr "Heating") =
    Ok (Temperature (JInt 3) (JStr "System pressure") (JStr "Heating") (JInt 1003)).
Proof.
  split; [|vm_compute; reflexivity].
  etransitivity.
  - apply (@schema_unit_overrides sample_constants
             [JDict [("valueId", JInt 3); ("unit", JStr "bar")]]
             [(JInt 3, JStr "bar")] [(JInt 3, JStr "bar")]
             (JDict [("tabName", JStr "Heating")]) own_unit_descriptor
             (JInt 3) (JStr "System pressure") (JInt 1003) (JStr "Heating") (JStr "bar"));
      first [discriminate | vm_compute; reflexivity].
  - vm_compute. reflexivity.
Defined.

(** X13 on two views that share a name across views only. *)
Lemma flatten_without_collisions_witness :
  flatten [[SimpleParameter (JInt 1) (JStr "Flow") (JStr "A") (JInt 1001)];
           [SimpleParameter (JInt 2) (JStr "Flow") (JStr "B") (JInt 1002);
            SimpleParameter (JInt 3) (JStr "Return") (JStr "B") (JInt 1003)]] =
  [SimpleParameter (JInt 2) (JStr "Flow") (JStr "B") (JInt 1002);
   SimpleParameter (JInt 3) (JStr "Return") (JStr "B") (JInt 1003);
   SimpleParameter (JInt 1) (JStr "Flow") (JStr "A") (JInt 1001)].
Proof.
  apply (flatten_without_collisions
           [[SimpleParameter (JInt 1) (JStr "Flow") (JStr "A") (JInt 1001)];
            [SimpleParameter (JInt 2) (JStr "Flow") (JStr "B") (JInt 1002);
             SimpleParameter (JInt 3) (JStr "Return") (JStr "B") (JInt 1003)]]).
  - simpl.
    apply (py_distinct_snoc [JInt 2; JInt 3] (JInt 1)); [|reflexivity].
    apply (py_distinct_snoc [JInt 2] (JInt 3)); [|reflexivity].
    apply (py_distinct_snoc [] (JInt 2)); [|reflexivity].
    apply py_distinct_nil.
  - repeat constructor; simpl.
    + apply (py_distinct_snoc [] (JStr "Flow")); [|reflexivity].
      apply py_distinct_nil.
    + apply (py_distinct_snoc [JStr "Flow"] (JStr "Return")); [|reflexivity].
      apply (py_distinct_snoc [] (JStr "Flow")); [|reflexivity].
      apply py_distinct_nil.
Defined.

(** X15 on the body a fresh client builds, in the sample constants. *)
Lemma fetch_value_request_shape_witness :
  let data := @values_payload sample_constants init (JInt 70) (JInt 7)
                [SimpleParameter (JInt 3) (JStr "Mode") (JStr "Heating") (JInt 1003)] in
  getitem data "bundleId" = Ok (JInt 1000) /\
  getitem data "bundle" = Ok (JBool false) /\
  getitem data "valueIdList" = Ok (JList [JInt 3]) /\
  getitem data "gatewayId" = Ok (JInt 70) /\
  getitem data "systemId" = Ok (JInt 7) /\
  getitem data "guiIdChanged" = Ok (JBool false) /\
  getitem data "sessionId" = Ok JNull /\
  getitem data "lastAccess" = Ok JNull.
Proof.
  intros data.
  apply (proj2 (proj2 (@fetch_value_request_shape sample_constants sample_helpers _ scripted
                         (JInt 70) (JInt 7)
                         [SimpleParameter (JInt 3) (JStr "Mode") (JStr "Heating") (JInt 1003)]
                         init []))).
  apply (bool_decide_unpack _). vm_compute. reflexivity.
Defined.

(** X17 on a response with a last access and no values. *)
Lemma fetch_value_stores_before_values_witness :
  let o' := @fetch_value sample_constants sample_helpers _ scripted (JInt 1) (JInt 2) []
              init (first_request_world (JDict [("lastAccess", JStr "2024-01-01T00:00:00")])) in
  last_access (self o') = JStr "2024-01-01T00:00:00" /\ res o' = Raise KeyError.
Proof.
  intros o'.
  destruct (@fetch_value_stores_before_values sample_constants sample_helpers _ scripted
              (JInt 1) (JInt 2) [] init
              (first_request_world (JDict [("lastAccess", JStr "2024-01-01T00:00:00")]))
              [("lastAccess", JStr "2024-01-01T00:00:00")] (JStr "2024-01-01T00:00:00"))
    as (Hstored & Hmissing & _).
  - vm_compute. reflexivity.
  - reflexivity.
  - reflexivity.
  - reflexivity.
  - split; [exact Hstored|]. apply Hmissing. reflexivity.
Defined.

(** X18 on two polls of a fresh client. *)
Lemma poll_sends_stored_last_access_witness :
  let o1 := @fetch_value sample_constants sample_helpers _ scripted (JInt 1) (JInt 2) []
              init two_polls_world in
  let o2 := @fetch_value sample_constants sample_helpers _ scripted (JInt 1) (JInt 2) []
              (self o1) (world o1) in
  Forall (fun k => exists data, kw_json k = Some data /\
                                getitem data (@LAST_ACCESS sample_constants) =
                                Ok (JStr "2024-01-01T00:00:00"))
         (request_kwargs (evs o2)) /\
  length (request_kwargs (evs o2)) = 1%nat.
Proof.
  intros o1 o2. split; [|vm_compute; reflexivity].
  apply (@poll_sends_stored_last_access sample_constants sample_helpers _ scripted
           (JInt 1) (JInt 2) [] init two_polls_world
           [("lastAccess", JStr "2024-01-01T00:00:00");
            ("values",
             JList [JDict [("valueId", JInt 1); ("value", JStr "21.5"); ("state", JInt 1)];
                    JDict [("valueId", JInt 2); ("state", JInt 4)];
                    JDict [("valueId", JInt 3); ("value", JStr "Off"); ("state", JInt 1)]])]
           (JStr "2024-01-01T00:00:00") (JInt 1) (JInt 2) []).
  - vm_compute. reflexivity.
  - reflexivity.
  - reflexivity.
  - reflexivity.
Defined.

(** X19 on a fresh client that closes the system: the body names no
    session, the client ends with session 11. *)
Lemma session_id_sent_is_the_callers_witness :
  let o := @close_system sample_constants sample_helpers _ scripted
             init (first_request_world JNull) in
  Forall (fun k => exists data, kw_json k = Some data /\
                                getitem data (@SESSION_ID sample_constants) = Ok JNull)
         (request_kwargs (evs o)) /\
  length (request_kwargs (evs o)) = 1%nat /\
  session_id (self o) = JInt 11.
Proof.
  intros o. split; [|split; vm_compute; reflexivity].
  apply (proj1 (@session_id_sent_is_the_callers sample_constants sample_system_constants
                  sample_helpers _ scripted JNull JNull [] init (first_request_world JNull))).
Defined.

(** X20 on a list of two systems. *)
Lemma fetch_system_list_devices_witness :
  exists devices,
    res (@fetch_system_list sample_constants sample_system_constants sample_helpers _ scripted
           init (first_request_world two_systems)) = Ok devices /\
    Forall2 (fun sys dev => exists i g n,
               dev = MkDevice i g n /\
               getitem sys (@ID sample_system_constants) = Ok i /\
               getitem sys (@GATEWAY_ID sample_constants) = Ok g /\
               getitem sys (@NAME sample_constants) = Ok n)
            [JDict [("id", JInt 7); ("gatewayId", JInt 70); ("name", JStr "Home")];
             JDict [("id", JInt 8); ("gatewayId", JInt 80); ("name", JStr "Cabin")]]
            devices.
Proof.
  destruct (@fetch_system_list_devices sample_constants sample_system_constants
              sample_helpers _ scripted init (first_request_world two_systems))
    as (_ & _ & _ & Hdevices & _).
  apply Hdevices.
  - vm_compute. reflexivity.
  - repeat constructor; eexists; (split; [reflexivity|]); vm_compute; reflexivity.
Defined.

(** X21 on a response with two states: the first one is read. *)
Lemma fetch_system_state_list_first_witness :
  res (@fetch_system_state_list sample_constants sample_system_constants sample_helpers _
         scripted (JInt 7) (JInt 70) init
         (first_request_world
            (JList [JDict [("gatewayState", JDict [("isOnline", JBool true)])];
                    JDict [("gatewayState", JDict [("isOnline", JBool false)])]]))) =
  Ok (JBool true).
Proof.
  destruct (@fetch_system_state_list_first sample_constants sample_system_constants
              sample_helpers _ scripted (JInt 7) (JInt 70) init
              (first_request_world
                 (JList [JDict [("gatewayState", JDict [("isOnline", JBool true)])];
                         JDict [("gatewayState", JDict [("isOnline", JBool false)])]])))
    as (_ & _ & _ & Hfirst & _).
  apply (Hfirst (JDict [("gatewayState", JDict [("isOnline", JBool true)])])
                [JDict [("gatewayState", JDict [("isOnline", JBool false)])]]
                (JDict [("isOnline", JBool true)])).
  - vm_compute. reflexivity.
  - reflexivity.
  - reflexivity.
Defined.

(** X24 on a run: the first call raises [FetchFailed], the flag stays
    false. *)
Lemma first_call_exception_passes_witness :
  let o := @__request sample_constants sample_helpers _ scripted
             "get" "api/portal/GetSystemList" (MkKwargs None None None)
             settled_client
             [AExpired false; ANow 10; AResponse (Raise (FetchFailed JNull))] in
  res o = Raise (FetchFailed JNull) /\ last_failed (self o) = false.
Proof.
  intros o.
  apply (@first_call_exception_passes sample_constants sample_helpers _ scripted
           "get" "api/portal/GetSystemList" (MkKwargs None None None)
           settled_client
           [AExpired false; ANow 10; AResponse (Raise (FetchFailed JNull))]
           (FetchFailed JNull)).
  vm_compute. reflexivity.
Defined.

(** X25 on a run: the keepalive is due at the reading 70000000 and
    raises. *)
Lemma keepalive_failure_witness :
  let o := @__request sample_constants sample_helpers _ scripted
             "get" "api/portal/GetSystemList" (MkKwargs None None None)
             settled_client
             [AExpired false; ANow 70000000; AKeepalive (Raise (OtherError "down"))] in
  res o = Raise (OtherError "down") /\ existsb is_request (evs o) = false /\
  last_session_refesh (self o) = Some 60000005%Z.
Proof.
  intros o.
  apply (@keepalive_failure sample_constants sample_helpers _ scripted
           "get" "api/portal/GetSystemList" (MkKwargs None None None)
           settled_client
           [AExpired false; ANow 70000000; AKeepalive (Raise (OtherError "down"))]
           "T0" (JInt 11) (OtherError "down")).
  vm_compute. auto 10.
Defined.

(** X28 on a schema-diagram block whose unit entry has a list as value
    id. *)
Lemma map_view_edges_witness :
  @_map_view sample_constants
    (JDict [("parameterDescriptors", JList []);
            ("SVGHeatingSchemaConfigDevices",
             JList [JDict [("parameters",
                            JList [JDict [("valueId", JList [JInt 3]);
                                          ("unit", JStr "bar")]])]])]) =
  Raise TypeError.
Proof.
  destruct (@map_view_edges sample_constants
              [("parameterDescriptors", JList []);
               ("SVGHeatingSchemaConfigDevices",
                JList [JDict [("parameters",
                               JList [JDict [("valueId", JList [JInt 3]);
                                             ("unit", JStr "bar")]])]])])
    as (_ & _ & _ & _ & Hunhashable).
  apply (Hunhashable
           (JDict [("parameters",
                    JList [JDict [("valueId", JList [JInt 3]); ("unit", JStr "bar")]])])
           []
           [JDict [("valueId", JList [JInt 3]); ("unit", JStr "bar")]]
           [(JList [JInt 3], JStr "bar")]).
  - reflexivity.
  - reflexivity.
  - reflexivity.
  - constructor. reflexivity.
Defined.
